(** * AquaForecast API: model registry, provenance, training orchestration and
    event bus, embedded from [app/services/model_service.py],
    [app/services/model_training_service.py], [app/api/v1/endpoints/models.py]
    and [app/core/events.py].

    Database rows are records, tables are lists in the order the store returns
    them, UUID primary keys are [nat]s, timestamps are [Z] (the caller passes
    [datetime.utcnow()] as [now]), Python exceptions are the [Exn] type below
    and a function that may raise returns [Exn + A]. *)

From Stdlib Require Import List String Ascii ZArith NArith QArith Bool Lia.
From Stdlib Require Import Sorting.Permutation Sorting.Sorted Lqa.
From Stdlib Require Import DecimalString.
Import ListNotations.

Local Open Scope nat_scope.
Local Open Scope list_scope.

(* ------------------------------------------------------------------ *)
(** ** Shared data model *)

(** [ModelStatus] of [app/models/model_version.py]. *)
Inductive ModelStatus := TRAINING | COMPLETED | FAILED | DEPLOYED | ARCHIVED.

(** [f"{status}"]: [ModelStatus] mixes [str] into [enum.Enum] (not
    [StrEnum]), so on Python 3.11+ [format] is [Enum.__str__], the class and
    member name. *)
Definition status_str (st : ModelStatus) : string :=
  match st with
  | TRAINING => "ModelStatus.TRAINING"
  | COMPLETED => "ModelStatus.COMPLETED"
  | FAILED => "ModelStatus.FAILED"
  | DEPLOYED => "ModelStatus.DEPLOYED"
  | ARCHIVED => "ModelStatus.ARCHIVED"
  end%string.

Definition ModelStatus_eqb (a b : ModelStatus) : bool :=
  match a, b with
  | TRAINING, TRAINING | COMPLETED, COMPLETED | FAILED, FAILED
  | DEPLOYED, DEPLOYED | ARCHIVED, ARCHIVED => true
  | _, _ => false
  end.

(** The raised exceptions: [ValueError] for the service's own checks, and
    [RuntimeError] for any other exception (numerical runtime, storage). *)
Inductive Exn :=
  | ValueError (msg : string)
  | RuntimeError (msg : string)
  | HTTPException (status_code : nat) (detail : string)
  | RequestValidationError (loc : list string) (msg : string)
  | DataError (msg : string).

(** [RequestValidationError] is FastAPI's 422 for a parameter that fails its
    declared constraint, before the handler runs; [DataError] is SQLAlchemy's
    wrapper of a database error, with the server's message. *)


(** [str(n)] of a number: its decimal digits. A UUID key, here a [nat], is
    interpolated through the same function. *)
Definition nat_str (n : nat) : string :=
  DecimalString.NilZero.string_of_uint (Nat.to_uint n).

Definition id_str (i : nat) : string := nat_str i.

(** Truthiness of an optional string column ([None] and [""] are falsy). *)
Definition truthy_str (o : option string) : bool :=
  match o with Some s => negb (String.eqb s "") | None => false end.

(** A [ModelVersion] row (the columns the service logic reads or writes). *)
Record ModelVersion := mkModelVersion {
  mv_id : nat;
  version : string;
  base_model_id : option nat;
  training_data_count : option nat;
  status : ModelStatus;
  is_deployed : bool;
  is_active : bool;
  min_app_version : option string;
  created_at : Z;
  deployed_at : option Z;
  notes : option string
}.

(** Field updates used by the registry operations. *)
Definition set_deploy_fields (m : ModelVersion) (dep : bool) (st : ModelStatus)
    (dat : option Z) (nts : option string) : ModelVersion :=
  mkModelVersion (mv_id m) (version m) (base_model_id m) (training_data_count m)
    st dep (is_active m) (min_app_version m) (created_at m) dat nts.

Definition set_base_model_id (m : ModelVersion) (b : option nat) : ModelVersion :=
  mkModelVersion (mv_id m) (version m) b (training_data_count m)
    (status m) (is_deployed m) (is_active m) (min_app_version m) (created_at m)
    (deployed_at m) (notes m).

Definition set_archived (m : ModelVersion) : ModelVersion :=
  mkModelVersion (mv_id m) (version m) (base_model_id m) (training_data_count m)
    ARCHIVED (is_deployed m) false (min_app_version m) (created_at m)
    (deployed_at m) (notes m).

(** [TrainingSession] row. *)
Record TrainingSession := mkTrainingSession {
  ts_model_version_id : nat;
  farm_data_ids : list nat
}.

(** [FarmData] row. [fish_weight] is [Numeric(8,3)] in kg and [fish_length]
    [Numeric(6,2)] in cm, both exact decimals, here rationals. *)
Record FarmData := mkFarmData {
  fd_id : nat;
  fd_user_id : nat;
  water : list Q;                   (* temperature, ph, dissolved_oxygen, ammonia, nitrate, turbidity *)
  fish_weight : option Q;
  fish_length : option Q;
  verified : bool;
  start_date : option Z;
  recorded_at : Z
}.

(** [TrainingTaskStatus] and the [TrainingTask] ledger row. *)
Inductive TrainingTaskStatus := T_PENDING | T_RUNNING | T_COMPLETED | T_FAILED.

Record TrainingTask := mkTrainingTask {
  task_id : nat;
  task_base_model_id : option nat;
  new_version : string;
  task_status : TrainingTaskStatus;
  progress_percentage : Q;
  current_epoch : option nat;
  total_epochs : option nat;
  current_stage : option string;
  error_message : option string;
  result_model_id : option nat;
  started_at : option Z;
  completed_at : option Z
}.

(** The durable store. *)
Record DB := mkDB {
  models : list ModelVersion;
  sessions : list TrainingSession;
  farm_data : list FarmData;
  tasks : list TrainingTask
}.

(* ------------------------------------------------------------------ *)
(** ** Model registry ([ModelService]) *)
Module Registry.

(** [get_model_by_id]: [filter(id == model_id).first()]. *)
Definition get_model_by_id (ms : list ModelVersion) (model_id : nat)
    : option ModelVersion :=
  find (fun m => Nat.eqb (mv_id m) model_id) ms.

(** [order_by(key.desc()).first()]: the first row of the table whose key is
    not below the key of any later row. *)
Fixpoint first_desc (ge : ModelVersion -> ModelVersion -> bool)
    (l : list ModelVersion) : option ModelVersion :=
  match l with
  | [] => None
  | x :: r =>
      match first_desc ge r with
      | None => Some x
      | Some y => if ge x y then Some x else Some y
      end
  end.

(** [deployed_at.desc()] on PostgreSQL: NULL sorts first in a descending order. *)
Definition deployed_at_ge (a b : ModelVersion) : bool :=
  match deployed_at a, deployed_at b with
  | None, _ => true
  | Some _, None => false
  | Some x, Some y => Z.leb y x
  end.

Definition created_at_ge (a b : ModelVersion) : bool :=
  Z.leb (created_at b) (created_at a).

(** [get_deployed_model]. *)
Definition get_deployed_model (ms : list ModelVersion) : option ModelVersion :=
  first_desc deployed_at_ge (filter is_deployed ms).

(** [get_latest_model]. *)
Definition get_latest_model (ms : list ModelVersion) : option ModelVersion :=
  match get_deployed_model ms with
  | Some d => Some d
  | None => first_desc created_at_ge (filter is_active ms)
  end.

Definition nl : string := String (ascii_of_nat 10) EmptyString.

(** The notes update of [deploy_model]. *)
Definition deploy_notes (old : option string) (nts : option string) : option string :=
  if truthy_str nts then
    let n := match nts with Some s => s | None => ""%string end in
    match old with
    | Some o => if truthy_str old
                then Some (o ++ nl ++ nl ++ "Deployment: " ++ n)%string
                else Some ("Deployment: " ++ n)%string
    | None => Some ("Deployment: " ++ n)%string
    end
  else old.

(** [deploy_model]: returns the deployed row and the committed table. *)
Definition deploy_model (now : Z) (ms : list ModelVersion) (model_id : nat)
    (nts : option string) : Exn + (ModelVersion * list ModelVersion) :=
  match get_model_by_id ms model_id with
  | None => inl (ValueError ("Model " ++ id_str model_id ++ " not found")%string)
  | Some model =>
      if negb (ModelStatus_eqb (status model) COMPLETED) then
        inl (ValueError ("Can only deploy completed models, got status: "
                         ++ status_str (status model))%string)
      else if is_deployed model then inr (model, ms)
      else
        (* unset ALL currently deployed models *)
        let ms1 := map (fun d => if is_deployed d
                                 then set_deploy_fields d false COMPLETED (deployed_at d) (notes d)
                                 else d) ms in
        let model' := set_deploy_fields model true DEPLOYED (Some now)
                        (deploy_notes (notes model) nts) in
        let ms2 := map (fun r => if Nat.eqb (mv_id r) model_id then model' else r) ms1 in
        inr (model', ms2)
  end.

(** [undeploy_model]. *)
Definition undeploy_model (ms : list ModelVersion) (model_id : nat)
    : Exn + (ModelVersion * list ModelVersion) :=
  match get_model_by_id ms model_id with
  | None => inl (ValueError ("Model " ++ id_str model_id ++ " not found")%string)
  | Some model =>
      if negb (is_deployed model) then inr (model, ms)
      else
        let model' := set_deploy_fields model false COMPLETED (deployed_at model) (notes model) in
        inr (model', map (fun r => if Nat.eqb (mv_id r) model_id then model' else r) ms)
  end.

(** [archive_model]. *)
Definition archive_model (ms : list ModelVersion) (model_id : nat)
    : Exn + (ModelVersion * list ModelVersion) :=
  match get_model_by_id ms model_id with
  | None => inl (ValueError ("Model " ++ id_str model_id ++ " not found")%string)
  | Some model =>
      if is_deployed model then inl (ValueError "Cannot archive currently deployed model")
      else
        let model' := set_archived model in
        inr (model', map (fun r => if Nat.eqb (mv_id r) model_id then model' else r) ms)
  end.

(** [is_version_compatible]: Python's [not x] on an optional string, then
    [app_version >= model.min_app_version] on [str]. *)
Fixpoint py_str_lt (a b : string) : bool :=
  match a, b with
  | EmptyString, EmptyString => false
  | EmptyString, String _ _ => true
  | String _ _, EmptyString => false
  | String c a', String d b' =>
      if Nat.ltb (nat_of_ascii c) (nat_of_ascii d) then true
      else if Nat.ltb (nat_of_ascii d) (nat_of_ascii c) then false
      else py_str_lt a' b'
  end.

Definition py_str_ge (a b : string) : bool := negb (py_str_lt a b).

Definition is_version_compatible (model : ModelVersion) (app_version : option string) : bool :=
  if negb (truthy_str (min_app_version model)) || negb (truthy_str app_version) then true
  else match app_version, min_app_version model with
       | Some a, Some mn => py_str_ge a mn
       | _, _ => true
       end.

(** The registry operations as steps on the [model_versions] table. *)
Inductive registry_step : list ModelVersion -> list ModelVersion -> Prop :=
  | step_deploy now model_id nts m ms ms' :
      deploy_model now ms model_id nts = inr (m, ms') -> registry_step ms ms'
  | step_undeploy model_id m ms ms' :
      undeploy_model ms model_id = inr (m, ms') -> registry_step ms ms'
  | step_archive model_id m ms ms' :
      archive_model ms model_id = inr (m, ms') -> registry_step ms ms'.

Inductive reachable (init : list ModelVersion) : list ModelVersion -> Prop :=
  | reach_init : reachable init init
  | reach_step ms ms' : reachable init ms -> registry_step ms ms' -> reachable init ms'.

End Registry.

(* ------------------------------------------------------------------ *)
(** ** Event bus ([app/core/events.py]) *)
Module Events.

(** [TrainingEventBus]: the [asyncio.Event] flag and [_active_tasks]. The
    coroutines run on one event loop, so each notification is one atomic
    step on this state. *)
Record TrainingEventBus := mkBus {
  event_set : bool;
  active_tasks : list nat
}.

(** [__init__]. *)
Definition init_bus : TrainingEventBus := mkBus false [].

Definition is_active (t : nat) (b : TrainingEventBus) : bool :=
  existsb (Nat.eqb t) (active_tasks b).

(** [notify_training_started]: [_active_tasks.add(task_id)], [_event.set()]. *)
Definition notify_training_started (t : nat) (b : TrainingEventBus) : TrainingEventBus :=
  mkBus true (if is_active t b then active_tasks b else t :: active_tasks b).

(** [notify_training_updated]: [_event.set()] only for an active task. *)
Definition notify_training_updated (t : nat) (b : TrainingEventBus) : TrainingEventBus :=
  if is_active t b then mkBus true (active_tasks b) else b.

(** [notify_training_completed]: [_active_tasks.discard(task_id)], [_event.set()]. *)
Definition notify_training_completed (t : nat) (b : TrainingEventBus) : TrainingEventBus :=
  mkBus true (filter (fun u => negb (Nat.eqb u t)) (active_tasks b)).

(** [wait_for_update] when no notifier runs meanwhile: a set event returns
    [True] at once and is cleared; otherwise the wait times out with [False]. *)
Definition wait_for_update (b : TrainingEventBus) : bool * TrainingEventBus :=
  if event_set b then (true, mkBus false (active_tasks b)) else (false, b).

(** A sequence of bus operations. *)
Inductive BusOp := Started (t : nat) | Updated (t : nat) | Completed (t : nat) | Wait.

Definition bus_step (b : TrainingEventBus) (o : BusOp) : TrainingEventBus :=
  match o with
  | Started t => notify_training_started t b
  | Updated t => notify_training_updated t b
  | Completed t => notify_training_completed t b
  | Wait => snd (wait_for_update b)
  end.

Definition run_bus (ops : list BusOp) : TrainingEventBus :=
  fold_left bus_step ops init_bus.

(** The spec's notion of an active task: the latest [Started]/[Completed]
    operation naming [t] is a [Started] one (read on the reversed history). *)
Fixpoint active_in_history_rev (t : nat) (rops : list BusOp) : bool :=
  match rops with
  | [] => false
  | Started u :: r => if Nat.eqb u t then true else active_in_history_rev t r
  | Completed u :: r => if Nat.eqb u t then false else active_in_history_rev t r
  | _ :: r => active_in_history_rev t r
  end.

Definition active_in_history (t : nat) (ops : list BusOp) : bool :=
  active_in_history_rev t (rev ops).

End Events.

(* ------------------------------------------------------------------ *)
(** ** Provenance and data fetch ([ModelTrainingService]) *)
Module Provenance.

(** [fish_weight.isnot(None), fish_length.isnot(None), verified == True]. *)
Definition eligible (r : FarmData) : bool :=
  match fish_weight r, fish_length r with
  | Some _, Some _ => verified r
  | _, _ => false
  end.

(** The union of [farm_data_ids] over all [TrainingSession] rows. *)
Definition used_data_ids (ss : list TrainingSession) : list nat :=
  flat_map farm_data_ids ss.

Definition mem (x : nat) (l : list nat) : bool := existsb (Nat.eqb x) l.

(** [get_unused_farm_data]: [list(all_data_ids - used_data_ids)]; a Python
    set has no duplicates, hence [nodup]. *)
Definition get_unused_farm_data (db : DB) : list nat :=
  nodup Nat.eq_dec
    (filter (fun i => negb (mem i (used_data_ids (sessions db))))
       (map fd_id (filter eligible (farm_data db)))).

(** A fetched row (the engineered feature columns are computed from these
    fields row by row and per-user rolling means; no property below depends
    on their values, so they are not carried). *)
Record Row := mkRow {
  r_water : list Q;
  r_fish_weight : option Q;   (* grams *)
  r_fish_length : option Q;   (* cm *)
  r_recorded_at : Z;
  r_start_date : option Z;
  r_user_id : nat
}.

(** Truthiness of a [Decimal] column: [None] and zero are falsy. *)
Definition truthy_Q (o : option Q) : bool :=
  match o with Some q => negb (Qeq_bool q 0) | None => false end.

(** The per-record dict of [fetch_training_data]. *)
Definition record_to_row (r : FarmData) : Row :=
  mkRow (water r)
    (if truthy_Q (fish_weight r)
     then match fish_weight r with Some w => Some (w * 1000)%Q | None => None end
     else None)
    (if truthy_Q (fish_length r) then fish_length r else None)
    (recorded_at r) (start_date r) (fd_user_id r).

(** [order_by(FarmData.recorded_at)] as an insertion sort (SQL leaves the
    order of equal timestamps unspecified). *)
Fixpoint insert_by_time (x : FarmData) (l : list FarmData) : list FarmData :=
  match l with
  | [] => [x]
  | y :: r => if Z.ltb (recorded_at x) (recorded_at y) then x :: y :: r
              else y :: insert_by_time x r
  end.

Definition sort_by_time (l : list FarmData) : list FarmData :=
  fold_right insert_by_time [] l.

(** [df.dropna(subset=['fish_weight', 'fish_length'])]. *)
Definition targets_present (r : Row) : bool :=
  match r_fish_weight r, r_fish_length r with
  | Some _, Some _ => true
  | _, _ => false
  end.

(** [fetch_training_data]. *)
Definition fetch_training_data (db : DB) (ids : list nat) : Exn + list Row :=
  let rs := sort_by_time (filter (fun r => mem (fd_id r) ids) (farm_data db)) in
  match rs with
  | [] => inl (ValueError "No farm data found for training")
  | _ =>
      let df := filter targets_present (map record_to_row rs) in
      match df with
      | [] => inl (ValueError "No valid training data after filtering")
      | _ => inr df
      end
  end.

End Provenance.

(* ------------------------------------------------------------------ *)
(** ** Training pipeline, training thread and retrain endpoint *)
Module Training.
Import Registry Events Provenance.
Local Open Scope string_scope.

(** The store and the process-wide event bus. *)
Record State := mkState { st_db : DB; st_bus : TrainingEventBus }.

(** State and exception monad: every [db.commit()] of the training session is
    a new [State]; an exception keeps the state committed so far. *)
Definition M (A : Type) : Type := State -> (Exn + A) * State.

Definition ret {A} (x : A) : M A := fun s => (inr x, s).
Definition raise {A} (e : Exn) : M A := fun s => (inl e, s).
Definition bind {A B} (c : M A) (k : A -> M B) : M B :=
  fun s => match c s with
           | (inr x, s') => k x s'
           | (inl e, s') => (inl e, s')
           end.
Definition gets {A} (f : State -> A) : M A := fun s => (inr (f s), s).
Definition lift {A} (r : Exn + A) : M A := fun s => (r, s).

Notation "x <- c ;; k" := (bind c (fun x => k))
  (at level 61, c at next level, right associativity).
Notation "c ;;; k" := (bind c (fun _ => k)) (at level 61, right associativity).

(** [db.query(TrainingTask).filter(TrainingTask.id == task_id).first()]. *)
Definition find_task (ts : list TrainingTask) (tid : nat) : option TrainingTask :=
  find (fun t => Nat.eqb (task_id t) tid) ts.

(** Mutating the ledger row with id [tid] and committing. *)
Definition update_task (tid : nat) (f : TrainingTask -> TrainingTask) (db : DB) : DB :=
  mkDB (models db) (sessions db) (farm_data db)
    (map (fun t => if Nat.eqb (task_id t) tid then f t else t) (tasks db)).

Definition set_progress (stage : string) (pct : Q) (epoch : option nat)
    (epochs : nat) (t : TrainingTask) : TrainingTask :=
  mkTrainingTask (task_id t) (task_base_model_id t) (new_version t) (task_status t)
    pct
    (match epoch with Some e => Some e | None => current_epoch t end)
    (match epoch with Some _ => Some epochs | None => total_epochs t end)
    (Some stage) (error_message t) (result_model_id t) (started_at t) (completed_at t).




(** The [update_progress] closure of [train_model]: commit the ledger row,
    then (with an event loop) schedule [notify_training_updated]. *)
Definition update_progress (task : option nat) (event_loop : bool) (epochs : nat)
    (stage : string) (pct : Q) (epoch : option nat) : M unit :=
  fun s =>
    match task with
    | None => (inr tt, s)
    | Some tid =>
        match find_task (tasks (st_db s)) tid with
        | None => (inr tt, s)
        | Some _ =>
            (inr tt,
             mkState (update_task tid (set_progress stage pct epoch epochs) (st_db s))
               (if event_loop then notify_training_updated tid (st_bus s) else st_bus s))
        end
    end.

(** The parameters of one training run ([train_params]). *)
Record TrainParams := mkTrainParams {
  tp_base_model_id : option nat;
  tp_new_version : string;
  tp_user_id : nat;
  tp_epochs : nat;
  tp_batch_size : nat;
  tp_learning_rate : Q;
  tp_notes : option string
}.

(** The numerical library the pipeline calls. *)
Record Runtime (Split Net Fitted Metrics Files Uploaded : Type) := mkRuntime {
  replace_infinite_values : list Row -> list Row;
  remove_multivariate_outliers : list Row -> list Row;
  impute_missing_features : list Row -> list Row;
  remove_target_outliers : list Row -> list Row;
  remove_duplicates : list Row -> list Row;
  train_test_split : list Row -> Exn + Split;
  scale_features : Split -> Exn + Split;
  (** [_prepare_model]: load (or create) and compile. *)
  prepare_model : option ModelVersion -> Q -> Exn + Net;
  (** [model.fit]: the 0-based indices of the epochs whose end callback ran,
      then the fitted model or the exception. *)
  train_with_callbacks : Net -> Split -> nat -> nat -> list nat * (Exn + Fitted);
  evaluate_model : Fitted -> Split -> nat -> Exn + Metrics;
  (** [model.save], [convert_to_tflite], [joblib.dump]. *)
  save_and_convert : Fitted -> string -> Exn + Files;
  (** the three [cloudinary_storage.upload_model] calls. *)
  upload_models : Files -> string -> Exn + Uploaded
}.
Arguments replace_infinite_values {_ _ _ _ _ _}.
Arguments remove_multivariate_outliers {_ _ _ _ _ _}.
Arguments impute_missing_features {_ _ _ _ _ _}.
Arguments remove_target_outliers {_ _ _ _ _ _}.
Arguments remove_duplicates {_ _ _ _ _ _}.
Arguments train_test_split {_ _ _ _ _ _}.
Arguments scale_features {_ _ _ _ _ _}.
Arguments prepare_model {_ _ _ _ _ _}.
Arguments train_with_callbacks {_ _ _ _ _ _}.
Arguments evaluate_model {_ _ _ _ _ _}.
Arguments save_and_convert {_ _ _ _ _ _}.
Arguments upload_models {_ _ _ _ _ _}.

Section Pipeline.

(** The numerical runtime (pandas, scikit-learn, TensorFlow, Cloudinary) is
    not embedded: each stage is an opaque function that returns its result or
    the exception it raises. *)
Context {Split Net Fitted Metrics Files Uploaded : Type}.
Context (rt : Runtime Split Net Fitted Metrics Files Uploaded).

(** [preprocess_training_data]: the five steps; a result below 50 rows only
    logs a warning. *)
Definition preprocess_training_data (df : list Row) : list Row :=
  remove_duplicates rt (remove_target_outliers rt (impute_missing_features rt
    (remove_multivariate_outliers rt (replace_infinite_values rt df)))).

Section Run.
Variables (p : TrainParams) (task : option nat) (event_loop : bool)
          (new_model_id : nat) (now : Z).

Let up (stage : string) (pct : Q) : M unit :=
  update_progress task event_loop (tp_epochs p) stage pct None.

(** [ProgressCallback.on_epoch_end]. *)
Fixpoint epoch_updates (eps : list nat) : M unit :=
  match eps with
  | [] => ret tt
  | e :: r =>
      update_progress task event_loop (tp_epochs p)
        ("Training epoch " ++ nat_str (S e) ++ "/" ++ nat_str (tp_epochs p))
        (30 + inject_Z (Z.of_nat (S e)) / inject_Z (Z.of_nat (tp_epochs p)) * 50)%Q
        (Some (S e)) ;;;
      epoch_updates r
  end.

(** Writing the [ModelVersion] and [TrainingSession] rows: [db.add],
    [db.flush()], [db.add], one [db.commit()]. *)
Definition commit_model_and_session (unused : list nat) : M ModelVersion :=
  fun s =>
    let db := st_db s in
    let mv := mkModelVersion new_model_id (tp_new_version p) (tp_base_model_id p)
                (Some (List.length unused)) COMPLETED false true None now None (tp_notes p) in
    let ts := mkTrainingSession new_model_id unused in
    (inr mv, mkState (mkDB (app (models db) [mv]) (app (sessions db) [ts])
                        (farm_data db) (tasks db)) (st_bus s)).

(** From [update_progress("Splitting and scaling data", 20.0)] on. *)
Definition train_after_clean (base : option ModelVersion) (unused : list nat)
    (df : list Row) : M ModelVersion :=
  up "Splitting and scaling data" 20 ;;;
  sp <- lift (train_test_split rt df) ;;
  up "Scaling features" 22 ;;;
  sp' <- lift (scale_features rt sp) ;;
  up "Preparing model" 25 ;;;
  net <- lift (prepare_model rt base (tp_learning_rate p)) ;;
  up "Training model" 30 ;;;
  let (eps, fres) := train_with_callbacks rt net sp' (tp_epochs p) (tp_batch_size p) in
  epoch_updates eps ;;;
  fitted <- lift fres ;;
  up "Evaluating model" 82 ;;;
  _ <- lift (evaluate_model rt fitted sp' (tp_epochs p)) ;;
  up "Converting and saving models" 85 ;;;
  files <- lift (save_and_convert rt fitted (tp_new_version p)) ;;
  up "Uploading models to cloud storage" 90 ;;;
  _ <- lift (upload_models rt files (tp_new_version p)) ;;
  up "Saving model metadata" 95 ;;;
  commit_model_and_session unused.

(** From [update_progress("Processing features", 15.0)] on: the fetch, the
    check of the fetched row count, the cleaning. *)
Definition train_from_fetch (base : option ModelVersion) (unused : list nat)
    : M ModelVersion :=
  up "Processing features" 15 ;;;
  df <- (fun s => (fetch_training_data (st_db s) unused, s)) ;;
  (if Nat.ltb (List.length df) 100
   then raise (ValueError ("Insufficient data for training: " ++ nat_str (List.length df)
                           ++ " samples available "
                           ++ "(minimum 100 required before preprocessing). "
                           ++ "Please sync more verified farm data entries."))
   else ret tt) ;;;
  up "Cleaning and preprocessing data" 17 ;;;
  train_after_clean base unused (preprocess_training_data df).

(** The base-model and version checks. *)
Definition validate_base : M (option ModelVersion) :=
  fun s =>
    match tp_base_model_id p with
    | None => (inr None, s)
    | Some b =>
        match get_model_by_id (models (st_db s)) b with
        | None => (inl (ValueError ("Base model " ++ id_str b ++ " not found")), s)
        | Some m =>
            if ModelStatus_eqb (status m) COMPLETED then (inr (Some m), s)
            else (inl (ValueError ("Base model must be in COMPLETED status, got "
                                   ++ status_str (status m))), s)
        end
    end.

Definition check_version_free : M unit :=
  fun s =>
    if existsb (fun m => String.eqb (version m) (tp_new_version p)) (models (st_db s))
    then (inl (ValueError ("Model version " ++ tp_new_version p ++ " already exists")), s)
    else (inr tt, s).

(** The pre-fetch pool check. *)
Definition pool_check (unused : list nat) : M unit :=
  if Nat.ltb (List.length unused) 100
  then raise (ValueError ("Insufficient unused farm data: " ++ nat_str (List.length unused)
                          ++ " samples (minimum 100 required)"))
  else ret tt.

(** [train_model]. *)
Definition train_model : M ModelVersion :=
  up "Validating base model" 5 ;;;
  base <- validate_base ;;
  check_version_free ;;;
  up "Fetching training data" 10 ;;;
  unused <- gets (fun s => get_unused_farm_data (st_db s)) ;;
  pool_check unused ;;;
  train_from_fetch base unused.

End Run.



End Pipeline.




(** The [ON DELETE SET NULL] foreign keys to [model_versions.id]:
    [model_versions.base_model_id] (also what the ORM does to the
    [child_models] backref), [training_tasks.base_model_id] and
    [training_tasks.result_model_id]. *)
Definition null_ref (model_id : nat) (o : option nat) : option nat :=
  match o with
  | Some r => if Nat.eqb r model_id then None else o
  | None => None
  end.

Definition null_base_model (model_id : nat) (m : ModelVersion) : ModelVersion :=
  set_base_model_id m (null_ref model_id (base_model_id m)).

Definition null_task_refs (model_id : nat) (t : TrainingTask) : TrainingTask :=
  mkTrainingTask (task_id t) (null_ref model_id (task_base_model_id t)) (new_version t)
    (task_status t) (progress_percentage t) (current_epoch t) (total_epochs t)
    (current_stage t) (error_message t) (null_ref model_id (result_model_id t))
    (started_at t) (completed_at t).

(** [ModelService.delete_model] on the tables (storage deletions are
    best-effort and leave the tables alone): the tasks whose
    [result_model_id] is the model are deleted, then the row, its
    [training_sessions] by cascade, and the other references are set to NULL. *)
Definition delete_model (db : DB) (model_id : nat) : Exn + DB :=
  match get_model_by_id (models db) model_id with
  | None => inl (ValueError ("Model " ++ id_str model_id ++ " not found"))
  | Some m =>
      if is_deployed m
      then inl (ValueError ("Cannot delete deployed model " ++ version m ++ ". "
                            ++ "Please undeploy it first."))
      else
        let tasks1 := filter (fun t => match result_model_id t with
                                       | Some r => negb (Nat.eqb r model_id)
                                       | None => true end) (tasks db) in
        inr (mkDB (map (null_base_model model_id)
                      (filter (fun r => negb (Nat.eqb (mv_id r) model_id)) (models db)))
                  (filter (fun t => negb (Nat.eqb (ts_model_version_id t) model_id)) (sessions db))
                  (farm_data db)
                  (map (null_task_refs model_id) tasks1))
  end.

End Training.

(* ------------------------------------------------------------------ *)
(** ** The listing and update-check services and endpoints *)
Module Catalog.
Import Registry.
Local Open Scope string_scope.

(** [order_by(ModelVersion.created_at.desc())] as an insertion sort. *)
Fixpoint insert_created_desc (x : ModelVersion) (l : list ModelVersion) : list ModelVersion :=
  match l with
  | [] => [x]
  | y :: r => if Z.leb (created_at y) (created_at x) then x :: y :: r
              else y :: insert_created_desc x r
  end.

Definition sort_created_desc (l : list ModelVersion) : list ModelVersion :=
  fold_right insert_created_desc [] l.

(** [get_all_models]. *)
Definition get_all_models (ms : list ModelVersion) (include_archived : bool) : list ModelVersion :=
  sort_created_desc
    (if include_archived then ms
     else filter (fun m => negb (ModelStatus_eqb (status m) ARCHIVED)) ms).

(** [check_for_update]. *)
Definition check_for_update (ms : list ModelVersion) (current_version : string)
    : bool * option ModelVersion :=
  let latest := match get_deployed_model ms with
                | Some d => Some d
                | None => get_latest_model ms
                end in
  match latest with
  | None => (false, None)
  | Some m => (negb (String.eqb (version m) current_version), Some m)
  end.

(** [ModelUpdateCheckResponse] (the download URL and size columns are passed
    through from the row and not carried). *)
Record UpdateCheckResponse := mkUpdateCheck {
  uc_update_available : bool;
  uc_current_version : string;
  uc_latest_version : option string;
  uc_release_notes : option string
}.

(** An optional string in an f-string. *)
Definition fstr_opt (o : option string) : string :=
  match o with Some s => s | None => "None" end.

(** [check_model_update]. *)
Definition check_model_update (ms : list ModelVersion) (current_version : string)
    (app_version : option string) : UpdateCheckResponse :=
  match check_for_update ms current_version with
  | (_, None) => mkUpdateCheck false current_version None None
  | (false, Some m) => mkUpdateCheck false current_version (Some (version m)) None
  | (true, Some m) =>
      if negb (is_version_compatible m app_version) then
        mkUpdateCheck false current_version (Some (version m))
          (Some ("Update requires app version " ++ fstr_opt (min_app_version m) ++ " or higher"))
      else
        mkUpdateCheck true current_version (Some (version m))
          (Some (if truthy_str (notes m) then fstr_opt (notes m)
                 else "New model version available with improved accuracy"))
  end.

(** [ModelListResponse] of [list_all_models] (rows as the service returns them). *)
Record ModelList := mkModelList {
  ml_models : list ModelVersion;
  ml_total_count : nat;
  ml_deployed_model_id : option nat
}.

Definition list_all_models (ms : list ModelVersion) (include_archived : bool) : ModelList :=
  let l := get_all_models ms include_archived in
  mkModelList l (List.length l)
    (match get_deployed_model ms with Some d => Some (mv_id d) | None => None end).

End Catalog.

(* ------------------------------------------------------------------ *)
(** ** The training-task endpoints and the progress stream *)
Module TaskApi.
Import Events.
Local Open Scope string_scope.

Definition TrainingTaskStatus_eqb (a b : TrainingTaskStatus) : bool :=
  match a, b with
  | T_PENDING, T_PENDING | T_RUNNING, T_RUNNING
  | T_COMPLETED, T_COMPLETED | T_FAILED, T_FAILED => true
  | _, _ => false
  end.

(** [TrainingTaskStatus(value)]: lookup by the enum's value; anything else
    raises [ValueError]. *)
Definition parse_task_status (v : string) : option TrainingTaskStatus :=
  if String.eqb v "pending" then Some T_PENDING
  else if String.eqb v "running" then Some T_RUNNING
  else if String.eqb v "completed" then Some T_COMPLETED
  else if String.eqb v "failed" then Some T_FAILED
  else None.

Section Listing.
(** The [created_at] column of the ledger, which the ledger record above does
    not carry. *)
Variable task_created_at : TrainingTask -> Z.

(** [order_by(TrainingTask.created_at.desc())] as an insertion sort. *)
Fixpoint insert_task_desc (x : TrainingTask) (l : list TrainingTask) : list TrainingTask :=
  match l with
  | [] => [x]
  | y :: r => if Z.leb (task_created_at y) (task_created_at x) then x :: y :: r
              else y :: insert_task_desc x r
  end.

Definition sort_tasks_desc (l : list TrainingTask) : list TrainingTask :=
  fold_right insert_task_desc [] l.

(** The query of [get_training_tasks] with its status filter, or the 400 for
    a filter that is not a [TrainingTaskStatus] value. *)
Definition select_tasks (ts : list TrainingTask) (status_filter : option string)
    : Exn + list TrainingTask :=
  match status_filter with
  | Some f =>
      if truthy_str status_filter then
        match parse_task_status f with
        | None => inl (HTTPException 400 ("Invalid status: " ++ f))
        | Some st => inr (filter (fun t => TrainingTaskStatus_eqb (task_status t) st) ts)
        end
      else inr ts
  | None => inr ts
  end.

(** [get_training_tasks]. [limit: int = Query(50, le=100)]: above 100 FastAPI
    answers 422 before the handler runs (pydantic v2's wording); a negative
    limit reaches the database, and PostgreSQL refuses a negative [LIMIT]. *)
Definition get_training_tasks (ts : list TrainingTask) (status_filter : option string)
    (limit : Z) : Exn + list TrainingTask :=
  if Z.ltb 100 limit
  then inl (RequestValidationError ["query"; "limit"] "Input should be less than or equal to 100")
  else
    match select_tasks ts status_filter with
    | inl e => inl e
    | inr xs =>
        if Z.ltb limit 0 then inl (DataError "LIMIT must not be negative")
        else inr (firstn (Z.to_nat limit) (sort_tasks_desc xs))
    end.

End Listing.

(** [stream_training_progress]: the per-task tuple the stream compares. *)
Definition TaskState : Type := (TrainingTaskStatus * Q * option nat * option string)%type.

Definition current_state (t : TrainingTask) : TaskState :=
  (task_status t, progress_percentage t, current_epoch t, current_stage t).

Definition option_eqb {A} (eqb : A -> A -> bool) (a b : option A) : bool :=
  match a, b with
  | Some x, Some y => eqb x y
  | None, None => true
  | _, _ => false
  end.

(** Tuple equality; the progress column is compared as a number. *)
Definition TaskState_eqb (a b : TaskState) : bool :=
  match a, b with
  | (s1, p1, e1, g1), (s2, p2, e2, g2) =>
      TrainingTaskStatus_eqb s1 s2 && Qeq_bool p1 p2 &&
      option_eqb Nat.eqb e1 e2 && option_eqb String.eqb g1 g2
  end.

(** [last_states]: a dict from task id to the last state sent. *)
Definition LastStates : Type := list (nat * TaskState).

Definition ls_get (k : nat) (l : LastStates) : option TaskState :=
  match find (fun kv => Nat.eqb (fst kv) k) l with
  | Some kv => Some (snd kv)
  | None => None
  end.

(** [last_states[k] = v]: overwrite in place, or append a new key. *)
Definition ls_set (k : nat) (v : TaskState) (l : LastStates) : LastStates :=
  if existsb (fun kv => Nat.eqb (fst kv) k) l
  then map (fun kv => if Nat.eqb (fst kv) k then (k, v) else kv) l
  else app l [(k, v)].

Inductive SseMsg := SsePing | SseData (t : TrainingTask) | SseHeartbeat.

(** The two queries of one round: pending or running tasks, then completed or
    failed tasks whose [completed_at] is not before the cutoff. *)
Definition sse_query (ts : list TrainingTask) (recent_cutoff : Z) : list TrainingTask :=
  app (filter (fun t => match task_status t with T_PENDING | T_RUNNING => true | _ => false end) ts)
      (filter (fun t => match task_status t with
                        | T_COMPLETED | T_FAILED =>
                            match completed_at t with
                            | Some c => Z.leb recent_cutoff c
                            | None => false
                            end
                        | _ => false
                        end) ts).

(** The [for task_id, task_dict, current_state in task_dicts] loop. *)
Fixpoint emit_changed (last : LastStates) (rows : list TrainingTask) : list SseMsg * LastStates :=
  match rows with
  | [] => ([], last)
  | t :: r =>
      let cur := current_state t in
      let changed := match ls_get (task_id t) last with
                     | Some v => negb (TaskState_eqb v cur)
                     | None => true
                     end in
      let last1 := if changed then ls_set (task_id t) cur last else last in
      let (ms, last2) := emit_changed last1 r in
      (app (if changed then [SseData t] else []) ms, last2)
  end.

(** One pass of the stream's loop after the wait: the changed tasks, the
    clean-up of ids no longer listed, the heartbeat after a timeout. *)
Definition sse_poll (last : LastStates) (event_occurred : bool) (rows : list TrainingTask)
    : list SseMsg * LastStates :=
  let (ms, last1) := emit_changed last rows in
  let ids := map task_id rows in
  let last2 := filter (fun kv => existsb (Nat.eqb (fst kv)) ids) last1 in
  (app ms (if event_occurred then [] else [SseHeartbeat]), last2).

(** One round: [wait_for_update], the queries, the pass. *)
Definition sse_round (b : TrainingEventBus) (last : LastStates) (ts : list TrainingTask)
    (recent_cutoff : Z) : list SseMsg * TrainingEventBus * LastStates :=
  let (occurred, b') := wait_for_update b in
  let (ms, last') := sse_poll last occurred (sse_query ts recent_cutoff) in
  (ms, b', last').

(** [has_active_tasks] and [get_active_task_count] of the event bus. *)
Definition has_active_tasks (b : TrainingEventBus) : bool :=
  Nat.ltb 0 (List.length (active_tasks b)).

Definition get_active_task_count (b : TrainingEventBus) : nat :=
  List.length (active_tasks b).

End TaskApi.

(* ================================================================== *)
(** * Properties *)

(* ------------------------------------------------------------------ *)
(** ** The model registry *)
Module RegistryFacts.
Import Registry.

(** Primary key unique, and every deployed row carries status [DEPLOYED]; the
    registry operations keep both (see [registry_step_wf]). *)
Definition registry_wf (ms : list ModelVersion) : Prop :=
  NoDup (map mv_id ms) /\
  (forall m, In m ms -> is_deployed m = true -> status m = DEPLOYED).

Definition deployed_count (ms : list ModelVersion) : nat :=
  List.length (filter is_deployed ms).

Lemma find_map_eq {A B} (p : B -> bool) (h : A -> B) (l : list A) :
  find p (map h l) = option_map h (find (fun x => p (h x)) l).
Proof.
  induction l as [|a l IH]; simpl; [reflexivity|].
  destruct (p (h a)); [reflexivity | exact IH].
Qed.

Lemma filter_map_swap {A B} (f : B -> bool) (h : A -> B) (l : list A) :
  filter f (map h l) = map h (filter (fun x => f (h x)) l).
Proof.
  induction l as [|a l IH]; simpl; [reflexivity|].
  destruct (f (h a)); simpl; rewrite IH; reflexivity.
Qed.

Lemma map_ids_preserved (h : ModelVersion -> ModelVersion) (l : list ModelVersion) :
  (forall r, mv_id (h r) = mv_id r) -> map mv_id (map h l) = map mv_id l.
Proof.
  intros Hh. rewrite map_map. apply map_ext. exact Hh.
Qed.

Lemma nodup_same_id (l : list ModelVersion) (a b : ModelVersion) :
  NoDup (map mv_id l) -> In a l -> In b l -> mv_id a = mv_id b -> a = b.
Proof.
  induction l as [|x l IH]; simpl; [tauto|].
  intros Hnd Ha Hb Hid. inversion Hnd as [|? ? Hnin Hnd']; subst.
  destruct Ha as [<-|Ha], Hb as [<-|Hb]; auto.
  - exfalso. apply Hnin. rewrite Hid. apply in_map. exact Hb.
  - exfalso. apply Hnin. rewrite <- Hid. apply in_map. exact Ha.
Qed.

Lemma filter_id_single (l : list ModelVersion) (x : ModelVersion) :
  NoDup (map mv_id l) -> In x l ->
  List.length (filter (fun r => Nat.eqb (mv_id r) (mv_id x)) l) = 1.
Proof.
  induction l as [|a l IH]; simpl; [tauto|].
  intros Hnd Hin. inversion Hnd as [|? ? Hnin Hnd']; subst.
  destruct Hin as [<-|Hin].
  - rewrite Nat.eqb_refl. simpl. f_equal.
    assert (Hnone : forall r, In r l -> Nat.eqb (mv_id r) (mv_id a) = false).
    { intros r Hr. apply Nat.eqb_neq. intros E. apply Hnin. rewrite <- E.
      apply in_map. exact Hr. }
    clear -Hnone. induction l as [|b l IH']; simpl; [reflexivity|].
    rewrite (Hnone b (or_introl eq_refl)). apply IH'.
    intros r Hr. apply Hnone. right. exact Hr.
  - destruct (Nat.eqb (mv_id a) (mv_id x)) eqn:E.
    + exfalso. apply Nat.eqb_eq in E. apply Hnin. rewrite E. apply in_map. exact Hin.
    + apply IH; assumption.
Qed.

Lemma filter_map_count_le (f : ModelVersion -> bool) (h : ModelVersion -> ModelVersion)
    (l : list ModelVersion) :
  (forall r, f (h r) = true -> f r = true) ->
  List.length (filter f (map h l)) <= List.length (filter f l).
Proof.
  intros Hh. induction l as [|a l IH]; simpl; [lia|].
  destruct (f (h a)) eqn:E1.
  - rewrite (Hh a E1). simpl. lia.
  - destruct (f a); simpl; lia.
Qed.

Lemma get_model_by_id_in (ms : list ModelVersion) (i : nat) (m : ModelVersion) :
  get_model_by_id ms i = Some m -> In m ms /\ mv_id m = i.
Proof.
  unfold get_model_by_id. intros H. apply find_some in H.
  destruct H as [H1 H2]. split; [exact H1 | apply Nat.eqb_eq; exact H2].
Qed.

Lemma status_completed (s : ModelStatus) :
  ModelStatus_eqb s COMPLETED = true -> s = COMPLETED.
Proof. destruct s; simpl; congruence. Qed.

(** The successful, non-trivial branch of [deploy_model] as one composed map. *)
Definition deploy_map (model' : ModelVersion) (model_id : nat) (r : ModelVersion) : ModelVersion :=
  if Nat.eqb (mv_id r) model_id then model'
  else if is_deployed r
       then set_deploy_fields r false COMPLETED (deployed_at r) (notes r) else r.

Lemma deploy_model_inv (now : Z) (ms ms' : list ModelVersion) (i : nat)
    (nts : option string) (m : ModelVersion) :
  registry_wf ms -> deploy_model now ms i nts = inr (m, ms') ->
  exists model, get_model_by_id ms i = Some model /\ In model ms /\ mv_id model = i /\
    is_deployed model = false /\
    m = set_deploy_fields model true DEPLOYED (Some now) (deploy_notes (notes model) nts) /\
    ms' = map (deploy_map m i) ms.
Proof.
  intros [Hnd Hcons] H. unfold deploy_model in H.
  destruct (get_model_by_id ms i) as [model|] eqn:Eg; [|discriminate].
  destruct (get_model_by_id_in _ _ _ Eg) as [Hin Hid].
  destruct (ModelStatus_eqb (status model) COMPLETED) eqn:Es; simpl in H; [|discriminate].
  apply status_completed in Es.
  destruct (is_deployed model) eqn:Ed.
  - rewrite (Hcons model Hin Ed) in Es. discriminate.
  - injection H as <- <-. exists model. repeat split; auto.
    rewrite map_map. apply map_ext. intros r. unfold deploy_map.
    destruct (is_deployed r); simpl; destruct (Nat.eqb (mv_id r) i); reflexivity.
Qed.

Lemma registry_step_wf (ms ms' : list ModelVersion) :
  registry_wf ms -> deployed_count ms <= 1 -> registry_step ms ms' ->
  registry_wf ms' /\ deployed_count ms' <= 1.
Proof.
  intros Hwf Hc Hstep. destruct Hwf as [Hnd Hcons].
  destruct Hstep as [now i nts m ms ms' H | i m ms ms' H | i m ms ms' H].
  - (* deploy *)
    unfold deploy_model in H.
    destruct (get_model_by_id ms i) as [model|] eqn:Eg; [|discriminate].
    destruct (get_model_by_id_in _ _ _ Eg) as [Hin Hid].
    destruct (ModelStatus_eqb (status model) COMPLETED) eqn:Es; simpl in H; [|discriminate].
    destruct (is_deployed model) eqn:Ed.
    + injection H as _ <-. split; [split|]; assumption.
    + injection H as _ <-. rewrite map_map.
      set (model' := set_deploy_fields model true DEPLOYED (Some now)
                       (deploy_notes (notes model) nts)).
      assert (Hmid : forall r, mv_id (deploy_map model' i r) = mv_id r).
      { intros r. unfold deploy_map. destruct (Nat.eqb (mv_id r) i) eqn:E.
        - apply Nat.eqb_eq in E. subst model'. simpl. congruence.
        - destruct (is_deployed r); reflexivity. }
      assert (Hext : map (fun x => if Nat.eqb (mv_id (if is_deployed x then
                 set_deploy_fields x false COMPLETED (deployed_at x) (notes x) else x)) i
                 then model' else (if is_deployed x then
                 set_deploy_fields x false COMPLETED (deployed_at x) (notes x) else x)) ms
               = map (deploy_map model' i) ms).
      { apply map_ext. intros r. unfold deploy_map. destruct (is_deployed r); simpl; reflexivity. }
      rewrite Hext. split; [split|].
      * rewrite map_ids_preserved by exact Hmid. exact Hnd.
      * intros r Hr Hdep. apply in_map_iff in Hr. destruct Hr as [x [<- Hx]].
        unfold deploy_map in *. destruct (Nat.eqb (mv_id x) i); [reflexivity|].
        destruct (is_deployed x); simpl in *; [discriminate | apply Hcons; assumption].
      * unfold deployed_count.
        rewrite filter_map_swap, length_map.
        rewrite (filter_ext _ (fun r => Nat.eqb (mv_id r) (mv_id model))).
        2:{ intros r. unfold deploy_map. rewrite Hid.
            destruct (Nat.eqb (mv_id r) i); [reflexivity|].
            destruct (is_deployed r) eqn:Er; simpl; [reflexivity | exact Er]. }
        rewrite (filter_id_single ms model Hnd Hin). lia.
  - (* undeploy *)
    unfold undeploy_model in H.
    destruct (get_model_by_id ms i) as [model|] eqn:Eg; [|discriminate].
    destruct (get_model_by_id_in _ _ _ Eg) as [Hin Hid].
    destruct (is_deployed model) eqn:Ed; simpl in H.
    + injection H as _ <-.
      set (h := fun r => if Nat.eqb (mv_id r) i
                         then set_deploy_fields model false COMPLETED (deployed_at model) (notes model)
                         else r).
      assert (Hmid : forall r, mv_id (h r) = mv_id r).
      { intros r. unfold h. destruct (Nat.eqb (mv_id r) i) eqn:E; [|reflexivity].
        apply Nat.eqb_eq in E. simpl. congruence. }
      assert (Hdep : forall r, is_deployed (h r) = true -> is_deployed r = true /\ h r = r).
      { intros r. unfold h. destruct (Nat.eqb (mv_id r) i); simpl; [discriminate | auto]. }
      split; [split|].
      * rewrite map_ids_preserved by exact Hmid. exact Hnd.
      * intros r Hr Hd. apply in_map_iff in Hr. destruct Hr as [x [<- Hx]].
        destruct (Hdep x Hd) as [Hx1 ->]. apply Hcons; assumption.
      * unfold deployed_count in *.
        pose proof (filter_map_count_le is_deployed h ms (fun r Hr => proj1 (Hdep r Hr))). lia.
    + injection H as _ <-. split; [split|]; assumption.
  - (* archive *)
    unfold archive_model in H.
    destruct (get_model_by_id ms i) as [model|] eqn:Eg; [|discriminate].
    destruct (get_model_by_id_in _ _ _ Eg) as [Hin Hid].
    destruct (is_deployed model) eqn:Ed; [discriminate|].
    injection H as _ <-.
    set (h := fun r => if Nat.eqb (mv_id r) i then set_archived model else r).
    assert (Hmid : forall r, mv_id (h r) = mv_id r).
    { intros r. unfold h. destruct (Nat.eqb (mv_id r) i) eqn:E; [|reflexivity].
      apply Nat.eqb_eq in E. simpl. congruence. }
    assert (Hdep : forall r, is_deployed (h r) = true -> is_deployed r = true /\ h r = r).
    { intros r. unfold h. destruct (Nat.eqb (mv_id r) i); simpl; [rewrite Ed; discriminate | auto]. }
    split; [split|].
    + rewrite map_ids_preserved by exact Hmid. exact Hnd.
    + intros r Hr Hd. apply in_map_iff in Hr. destruct Hr as [x [<- Hx]].
      destruct (Hdep x Hd) as [Hx1 ->]. apply Hcons; assumption.
    + unfold deployed_count in *.
      pose proof (filter_map_count_le is_deployed h ms (fun r Hr => proj1 (Hdep r Hr))). lia.
Qed.

Lemma reachable_wf (init ms : list ModelVersion) :
  registry_wf init -> deployed_count init <= 1 -> reachable init ms ->
  registry_wf ms /\ deployed_count ms <= 1.
Proof.
  intros Hwf Hc Hr. induction Hr as [|ms ms' Hr IH Hstep]; [auto|].
  destruct IH as [Hwf' Hc']. apply (registry_step_wf ms ms'); assumption.
Qed.

Lemma find_ext_eq {A} (p q : A -> bool) (l : list A) :
  (forall x, p x = q x) -> find p l = find q l.
Proof.
  intros H. induction l as [|a l IH]; simpl; [reflexivity|].
  rewrite H. destruct (q a); [reflexivity | exact IH].
Qed.

Lemma deploy_map_count (m model : ModelVersion) (i : nat) (ms : list ModelVersion) :
  NoDup (map mv_id ms) -> In model ms -> mv_id model = i -> is_deployed m = true ->
  deployed_count (map (deploy_map m i) ms) = 1.
Proof.
  intros Hnd Hin Hid Hm. unfold deployed_count.
  rewrite filter_map_swap, length_map.
  rewrite (filter_ext _ (fun r => Nat.eqb (mv_id r) (mv_id model))).
  - apply filter_id_single; assumption.
  - intros r. unfold deploy_map. rewrite Hid.
    destruct (Nat.eqb (mv_id r) i); [exact Hm|].
    destruct (is_deployed r) eqn:Er; simpl; [reflexivity | exact Er].
Qed.

(** C1 (as amended): in every registry state whose primary keys are unique
    and whose deployed rows all carry status [DEPLOYED] (every state the
    registry operations reach from such a state), a successful
    [deploy_model] leaves the target row with [is_deployed = true],
    [status = DEPLOYED] and [deployed_at] set, every row deployed beforehand
    with [is_deployed = false] and [status = COMPLETED], and exactly one
    deployed row; and from any such state with at most one deployed row,
    every state reachable through deploy/undeploy/archive has at most one
    deployed row. *)
Theorem deploy_model_single_deployed :
  (forall (now : Z) (ms ms' : list ModelVersion) (i : nat) (nts : option string)
          (m : ModelVersion),
     registry_wf ms -> deploy_model now ms i nts = inr (m, ms') ->
     get_model_by_id ms' i = Some m /\ is_deployed m = true /\ status m = DEPLOYED /\
     deployed_at m = Some now /\
     (forall d, In d ms -> is_deployed d = true ->
        exists d', In d' ms' /\ mv_id d' = mv_id d /\ is_deployed d' = false /\
                   status d' = COMPLETED) /\
     deployed_count ms' = 1) /\
  (forall init ms : list ModelVersion,
     registry_wf init -> deployed_count init <= 1 -> reachable init ms ->
     deployed_count ms <= 1).
Proof.
  split.
  - intros now ms ms' i nts m Hwf H.
    destruct (deploy_model_inv now ms ms' i nts m Hwf H)
      as [model [Eg [Hin [Hid [Ed [Em Ems']]]]]].
    destruct Hwf as [Hnd Hcons].
    assert (Hmi : mv_id m = i) by (rewrite Em; exact Hid).
    assert (Hmid : forall r, mv_id (deploy_map m i r) = mv_id r).
    { intros r. unfold deploy_map. destruct (Nat.eqb (mv_id r) i) eqn:E.
      - apply Nat.eqb_eq in E. congruence.
      - destruct (is_deployed r); reflexivity. }
    subst ms'. repeat split.
    + unfold get_model_by_id. rewrite find_map_eq.
      rewrite (find_ext_eq _ (fun x => Nat.eqb (mv_id x) i)) by (intros x; rewrite Hmid; reflexivity).
      fold (get_model_by_id ms i). rewrite Eg. simpl. f_equal.
      unfold deploy_map. rewrite Hid, Nat.eqb_refl. reflexivity.
    + rewrite Em. reflexivity.
    + rewrite Em. reflexivity.
    + rewrite Em. reflexivity.
    + intros d Hd Hdd.
      assert (Hne : Nat.eqb (mv_id d) i = false).
      { apply Nat.eqb_neq. intros E. rewrite <- Hid in E.
        pose proof (nodup_same_id ms d model Hnd Hd Hin E) as ->. congruence. }
      exists (deploy_map m i d). split; [apply in_map; exact Hd|].
      unfold deploy_map. rewrite Hne, Hdd. simpl. auto.
    + apply (deploy_map_count m model); [exact Hnd | exact Hin | exact Hid | rewrite Em; reflexivity].
  - intros init ms Hwf Hc Hr. exact (proj2 (reachable_wf init ms Hwf Hc Hr)).
Qed.

(** C1 counterexample: the claim quantifies over every registry state. In a
    state holding a row with [status = COMPLETED] and [is_deployed = true]
    next to a deployed row, [deploy_model] on that row takes the
    already-deployed early return: it succeeds, the returned row keeps
    status [COMPLETED], and two rows stay deployed. *)
Example deploy_model_every_state_counterexample :
  let m1 := mkModelVersion 1 "1.0.0" None None COMPLETED true true None 0 None None in
  let m2 := mkModelVersion 2 "2.0.0" None None DEPLOYED true true None 1 (Some 1%Z) None in
  deploy_model 5 [m1; m2] 1 None = inr (m1, [m1; m2]) /\
  status m1 <> DEPLOYED /\ deployed_count [m1; m2] = 2.
Proof. simpl. split; [reflexivity | split; [discriminate | reflexivity]]. Qed.

Lemma first_desc_none (ge : ModelVersion -> ModelVersion -> bool) (l : list ModelVersion) :
  first_desc ge l = None -> l = [].
Proof.
  destruct l as [|x r]; simpl; [reflexivity|].
  destruct (first_desc ge r); [destruct (ge x m)|]; discriminate.
Qed.

Lemma first_desc_in (ge : ModelVersion -> ModelVersion -> bool) (l : list ModelVersion)
    (x : ModelVersion) :
  first_desc ge l = Some x -> In x l.
Proof.
  revert x. induction l as [|a r IH]; simpl; intros x H; [discriminate|].
  destruct (first_desc ge r) as [y|] eqn:E.
  - destruct (ge a y); injection H as <-; [left; reflexivity | right; apply IH; reflexivity].
  - injection H as <-. left. reflexivity.
Qed.

Lemma first_desc_created_max (l : list ModelVersion) (x : ModelVersion) :
  first_desc created_at_ge l = Some x ->
  forall y, In y l -> (created_at y <= created_at x)%Z.
Proof.
  revert x. induction l as [|a r IH]; simpl; intros x H y Hy; [contradiction|].
  destruct (first_desc created_at_ge r) as [z|] eqn:E.
  - unfold created_at_ge in H at 1. destruct (Z.leb (created_at z) (created_at a)) eqn:Ez;
      injection H as <-; apply Z.leb_le in Ez || apply Z.leb_gt in Ez.
    + destruct Hy as [<-|Hy]; [lia|]. specialize (IH z eq_refl y Hy). lia.
    + destruct Hy as [<-|Hy]; [lia|]. exact (IH z eq_refl y Hy).
  - injection H as <-. apply first_desc_none in E. subst r.
    destruct Hy as [<-|[]]. lia.
Qed.

Lemma filter_nil_iff {A} (f : A -> bool) (l : list A) :
  filter f l = [] <-> forall x, In x l -> f x = false.
Proof.
  induction l as [|a l IH]; simpl; [split; [contradiction | reflexivity]|].
  destruct (f a) eqn:E; split.
  - discriminate.
  - intros H. rewrite (H a (or_introl eq_refl)) in E. discriminate.
  - intros H x [<-|Hx]; [exact E | apply IH; assumption].
  - intros H. apply IH. intros x Hx. apply H. right. exact Hx.
Qed.

(** C7: [get_latest_model] returns a deployed row whenever one exists, and
    the deployed row itself when it is the only one, however recent the
    active rows are; with no deployed row it returns an active row created
    no earlier than any other active row, and [None] exactly when no row is
    active. *)
Theorem get_latest_model_spec (ms : list ModelVersion) :
  ((exists d, In d ms /\ is_deployed d = true) ->
     exists m, get_latest_model ms = Some m /\ In m ms /\ is_deployed m = true) /\
  (forall d, filter is_deployed ms = [d] -> get_latest_model ms = Some d) /\
  ((forall d, In d ms -> is_deployed d = false) ->
     (get_latest_model ms = None <-> forall m, In m ms -> is_active m = false) /\
     (forall m, get_latest_model ms = Some m ->
        In m ms /\ is_active m = true /\
        forall m', In m' ms -> is_active m' = true -> (created_at m' <= created_at m)%Z)).
Proof.
  split; [|split].
  - intros [d [Hd Hdd]]. unfold get_latest_model, get_deployed_model.
    destruct (first_desc deployed_at_ge (filter is_deployed ms)) as [x|] eqn:E.
    + exists x. apply first_desc_in in E. apply filter_In in E. tauto.
    + exfalso. apply first_desc_none in E. apply filter_nil_iff with (x := d) in E;
        [congruence | exact Hd].
  - intros d Hf. unfold get_latest_model, get_deployed_model. rewrite Hf. reflexivity.
  - intros Hnone.
    assert (Hf : filter is_deployed ms = []) by (apply filter_nil_iff; exact Hnone).
    unfold get_latest_model, get_deployed_model. rewrite Hf. simpl. split.
    + split.
      * intros H. apply first_desc_none in H. apply filter_nil_iff. exact H.
      * intros H. apply filter_nil_iff in H. rewrite H. reflexivity.
    + intros m Hm. pose proof (first_desc_in _ _ _ Hm) as Hin.
      apply filter_In in Hin. destruct Hin as [Hin Ha]. split; [exact Hin | split; [exact Ha|]].
      intros m' Hm' Ha'. apply (first_desc_created_max _ _ Hm).
      apply filter_In. split; assumption.
Qed.

Lemma py_str_lt_compare (a b : string) :
  py_str_lt a b = true <-> String.compare a b = Lt.
Proof.
  revert b. induction a as [|c a IH]; intros [|d b]; simpl;
    try (split; reflexivity || discriminate).
  unfold Ascii.compare. rewrite N2Nat.inj_compare. unfold nat_of_ascii.
  destruct (Nat.compare_spec (N.to_nat (N_of_ascii c)) (N.to_nat (N_of_ascii d))) as [E|E|E].
  - rewrite E, Nat.ltb_irrefl. apply IH.
  - apply Nat.ltb_lt in E. rewrite E. split; reflexivity.
  - pose proof E as E'. apply Nat.ltb_lt in E. rewrite E.
    assert (Hn : Nat.ltb (N.to_nat (N_of_ascii c)) (N.to_nat (N_of_ascii d)) = false)
      by (apply Nat.ltb_ge; lia).
    rewrite Hn. split; discriminate.
Qed.

(** C9 (as amended): [is_version_compatible] returns [true] when
    [min_app_version] or [app_version] is null or the empty string; otherwise
    it returns [app_version >= min_app_version] in plain lexicographic string
    order ([String.compare]), so ["10.0.0"] is below ["9.0.0"]. *)
Theorem is_version_compatible_spec :
  (forall (m : ModelVersion) (app : option string),
     (min_app_version m = None \/ min_app_version m = Some ""%string \/
      app = None \/ app = Some ""%string) ->
     is_version_compatible m app = true) /\
  (forall (m : ModelVersion) (a mn : string),
     min_app_version m = Some mn -> mn <> ""%string -> a <> ""%string ->
     (is_version_compatible m (Some a) = true <-> String.compare a mn <> Lt)) /\
  (forall m : ModelVersion, min_app_version m = Some "9.0.0"%string ->
     is_version_compatible m (Some "10.0.0"%string) = false).
Proof.
  split; [|split].
  - intros m app H. unfold is_version_compatible.
    destruct H as [H|[H|[H|H]]]; rewrite H; simpl; [reflexivity|reflexivity| |];
      destruct (truthy_str (min_app_version m)); reflexivity.
  - intros m a mn Hm Hmn Ha. unfold is_version_compatible. rewrite Hm.
    unfold truthy_str.
    apply String.eqb_neq in Hmn. apply String.eqb_neq in Ha. rewrite Hmn, Ha. simpl.
    unfold py_str_ge. rewrite negb_true_iff.
    destruct (py_str_lt a mn) eqn:E.
    + apply py_str_lt_compare in E. rewrite E. split; [discriminate | intros H; contradiction].
    + split; [intros _ | reflexivity]. intros Hc. apply py_str_lt_compare in Hc. congruence.
  - intros m Hm. unfold is_version_compatible. rewrite Hm. reflexivity.
Qed.

(** C9 counterexample: a request with [app_version = ""] (the query string
    [?app_version=]) against [min_app_version = "1.0.0"] is reported
    compatible, although the plain comparison ["" >= "1.0.0"] is false. *)
Example is_version_compatible_empty_app_counterexample :
  let m := mkModelVersion 1 "1.0.0" None None COMPLETED false true
             (Some "1.0.0"%string) 0 None None in
  is_version_compatible m (Some ""%string) = true /\
  py_str_ge ""%string "1.0.0"%string = false.
Proof. split; reflexivity. Qed.

End RegistryFacts.

(* ------------------------------------------------------------------ *)
(** ** The event bus *)
Module EventsFacts.
Import Events.

Lemma is_active_started (t u : nat) (b : TrainingEventBus) :
  is_active t (notify_training_started u b) = if Nat.eqb u t then true else is_active t b.
Proof.
  unfold is_active, notify_training_started. simpl.
  destruct (Nat.eqb u t) eqn:E.
  - apply Nat.eqb_eq in E. subst u. fold (is_active t b).
    destruct (is_active t b) eqn:Ea; simpl; [exact Ea | rewrite Nat.eqb_refl; reflexivity].
  - destruct (is_active u b); simpl; [reflexivity|].
    rewrite Nat.eqb_sym, E. reflexivity.
Qed.

Lemma is_active_completed (t u : nat) (b : TrainingEventBus) :
  is_active t (notify_training_completed u b) = if Nat.eqb u t then false else is_active t b.
Proof.
  unfold is_active, notify_training_completed. simpl.
  induction (active_tasks b) as [|v l IH]; simpl; [destruct (Nat.eqb u t); reflexivity|].
  destruct (Nat.eqb v u) eqn:Evu; simpl.
  - apply Nat.eqb_eq in Evu. subst v. rewrite IH.
    destruct (Nat.eqb u t) eqn:E; [reflexivity|].
    rewrite Nat.eqb_sym, E. reflexivity.
  - rewrite IH. destruct (Nat.eqb u t) eqn:E; [|reflexivity].
    apply Nat.eqb_eq in E. subst u. rewrite Nat.eqb_sym, Evu. reflexivity.
Qed.

Lemma is_active_updated (t u : nat) (b : TrainingEventBus) :
  is_active t (notify_training_updated u b) = is_active t b.
Proof.
  unfold notify_training_updated. destruct (is_active u b); reflexivity.
Qed.

Lemma is_active_wait (t : nat) (b : TrainingEventBus) :
  is_active t (snd (wait_for_update b)) = is_active t b.
Proof.
  unfold wait_for_update. destruct (event_set b); reflexivity.
Qed.

Lemma run_bus_active (ops : list BusOp) (t : nat) :
  is_active t (run_bus ops) = active_in_history t ops.
Proof.
  unfold run_bus, active_in_history.
  induction ops as [|o ops IH] using rev_ind; [reflexivity|].
  rewrite fold_left_app, rev_app_distr. simpl.
  destruct o as [u|u|u|]; simpl.
  - rewrite is_active_started, IH. reflexivity.
  - rewrite is_active_updated. exact IH.
  - rewrite is_active_completed, IH. reflexivity.
  - rewrite is_active_wait. exact IH.
Qed.

(** C8: after any sequence of bus operations from the initial bus, a task
    is in the active set exactly when its latest started/completed
    notification is a started one; [notify_training_updated t] sets the
    event exactly then (and otherwise leaves the bus unchanged); after
    [notify_training_completed t] a [notify_training_updated t] changes
    nothing; and [notify_training_completed t] sets the event from any bus,
    whether or not [t] was active. *)
Theorem event_bus_notify_spec (ops : list BusOp) (t : nat) :
  let b := run_bus ops in
  is_active t b = active_in_history t ops /\
  event_set (notify_training_updated t b) = (event_set b || active_in_history t ops) /\
  (event_set b = false ->
     (event_set (notify_training_updated t b) = true <-> active_in_history t ops = true)) /\
  (active_in_history t ops = false -> notify_training_updated t b = b) /\
  active_in_history t (ops ++ [Completed t]) = false /\
  notify_training_updated t (notify_training_completed t b) = notify_training_completed t b /\
  (forall b' : TrainingEventBus, event_set (notify_training_completed t b') = true).
Proof.
  intros b. pose proof (run_bus_active ops t) as Ha. fold b in Ha.
  split; [exact Ha|]. split; [|split; [|split; [|split; [|split]]]].
  - unfold notify_training_updated. rewrite Ha.
    destruct (active_in_history t ops); simpl; [rewrite orb_true_r | rewrite orb_false_r]; reflexivity.
  - intros He. unfold notify_training_updated. rewrite Ha.
    destruct (active_in_history t ops); simpl; [split; reflexivity | rewrite He; split; discriminate].
  - intros Hn. unfold notify_training_updated. rewrite Ha, Hn. reflexivity.
  - unfold active_in_history. rewrite rev_app_distr. simpl. rewrite Nat.eqb_refl. reflexivity.
  - unfold notify_training_updated at 1. rewrite is_active_completed, Nat.eqb_refl. reflexivity.
  - intros b'. reflexivity.
Qed.

End EventsFacts.

(* ------------------------------------------------------------------ *)
(** ** The training pipeline and the training thread *)
Module TrainingFacts.
Import Registry Events Provenance Training.

(** What a training run may change apart from the ledger's progress columns:
    the model, session and farm-data tables, and each ledger row's id and
    [result_model_id]. *)
Record Tables := mkTables {
  t_models : list ModelVersion;
  t_sessions : list TrainingSession;
  t_farm : list FarmData;
  t_ledger : list (nat * option nat)
}.

Definition tables (s : State) : Tables :=
  mkTables (models (st_db s)) (sessions (st_db s)) (farm_data (st_db s))
    (map (fun t => (task_id t, result_model_id t)) (tasks (st_db s))).

(** [c] ends by raising with [tables] untouched, or returns [x] in a state
    related to the initial tables by [P]. *)
Definition ok {A} (c : M A) (P : Tables -> A -> State -> Prop) : Prop :=
  forall s r s', c s = (r, s') ->
  match r with
  | inl _ => tables s' = tables s
  | inr x => P (tables s) x s'
  end.

Definition keeps {A} (c : M A) : Prop := ok c (fun t _ s' => tables s' = t).

Lemma ok_bind_keeps {A B} (c : M A) (k : A -> M B) (P : Tables -> B -> State -> Prop) :
  keeps c -> (forall x, ok (k x) P) -> ok (bind c k) P.
Proof.
  intros Hc Hk s r s'' H. unfold bind in H.
  destruct (c s) as [[e|x] s1] eqn:E.
  - injection H as <- <-. exact (Hc s (inl e) s1 E).
  - pose proof (Hc s (inr x) s1 E) as Ht. simpl in Ht.
    specialize (Hk x s1 r s'' H). rewrite Ht in Hk. exact Hk.
Qed.

Lemma ok_bind_gets {A B} (f : State -> A) (k : A -> M B) (Q : A -> Tables -> B -> State -> Prop)
    (P : Tables -> B -> State -> Prop) :
  (forall x, ok (k x) (Q x)) ->
  (forall s y s', Q (f s) (tables s) y s' -> P (tables s) y s') ->
  ok (bind (gets f) k) P.
Proof.
  intros Hk HQ s r s' H. unfold bind, gets in H.
  specialize (Hk (f s) s r s' H). destruct r; [exact Hk | apply HQ; exact Hk].
Qed.

Lemma ok_weaken {A} (c : M A) (P P' : Tables -> A -> State -> Prop) :
  ok c P -> (forall t x s', P t x s' -> P' t x s') -> ok c P'.
Proof.
  intros Hc HP s r s' H. specialize (Hc s r s' H). destruct r; [exact Hc | apply HP; exact Hc].
Qed.

Lemma keeps_bind {A B} (c : M A) (k : A -> M B) :
  keeps c -> (forall x, keeps (k x)) -> keeps (bind c k).
Proof. intros Hc Hk. apply ok_bind_keeps; assumption. Qed.

Lemma keeps_ret {A} (x : A) : keeps (ret x).
Proof. intros s r s' H. injection H as <- <-. reflexivity. Qed.

Lemma keeps_raise {A} (e : Exn) : keeps (@raise A e).
Proof. intros s r s' H. injection H as <- <-. reflexivity. Qed.

Lemma keeps_lift {A} (x : Exn + A) : keeps (lift x).
Proof. intros s r s' H. injection H as <- <-. destruct x; reflexivity. Qed.

Lemma keeps_ite {A} (b : bool) (c1 c2 : M A) :
  keeps c1 -> keeps c2 -> keeps (if b then c1 else c2).
Proof. destruct b; auto. Qed.

Lemma update_task_ledger (tid : nat) (f : TrainingTask -> TrainingTask) (db : DB) :
  (forall t, task_id (f t) = task_id t /\ result_model_id (f t) = result_model_id t) ->
  map (fun t => (task_id t, result_model_id t)) (tasks (update_task tid f db))
  = map (fun t => (task_id t, result_model_id t)) (tasks db).
Proof.
  intros Hf. unfold update_task. simpl. rewrite map_map. apply map_ext.
  intros t. destruct (Nat.eqb (task_id t) tid); [|reflexivity].
  destruct (Hf t) as [-> ->]. reflexivity.
Qed.

Lemma keeps_update_progress (task : option nat) (el : bool) (epochs : nat)
    (stage : string) (pct : Q) (epoch : option nat) :
  keeps (update_progress task el epochs stage pct epoch).
Proof.
  intros s r s' H. unfold update_progress in H.
  destruct task as [tid|]; [|injection H as <- <-; reflexivity].
  destruct (find_task (tasks (st_db s)) tid); [|injection H as <- <-; reflexivity].
  injection H as <- <-. unfold tables. cbn [st_db].
  rewrite update_task_ledger by (intros ?; split; reflexivity). reflexivity.
Qed.

Create HintDb keeps.
#[local] Hint Resolve keeps_bind keeps_ret keeps_raise keeps_lift keeps_ite
  keeps_update_progress : keeps.

Ltac keeps_step :=
  first
    [ apply ok_bind_keeps; [solve [eauto with keeps] | intros ?]
    | apply keeps_bind; [solve [eauto with keeps] | intros ?] ].

Section Run.
Context {Split Net Fitted Metrics Files Uploaded : Type}.
Context (rt : Runtime Split Net Fitted Metrics Files Uploaded).
Context (p : TrainParams) (task : option nat) (el : bool) (nid : nat) (now : Z).

Lemma keeps_epoch_updates (eps : list nat) : keeps (epoch_updates p task el eps).
Proof.
  induction eps as [|e r IH]; simpl; [apply keeps_ret|].
  apply keeps_bind; [apply keeps_update_progress | intros _; exact IH].
Qed.

Lemma keeps_validate_base : keeps (validate_base p).
Proof.
  intros s r s' H. unfold validate_base in H.
  destruct (tp_base_model_id p) as [b|]; [|injection H as <- <-; reflexivity].
  destruct (get_model_by_id (models (st_db s)) b) as [m|]; [|injection H as <- <-; reflexivity].
  destruct (ModelStatus_eqb (status m) COMPLETED); injection H as <- <-; reflexivity.
Qed.

Lemma keeps_check_version_free : keeps (check_version_free p).
Proof.
  intros s r s' H. unfold check_version_free in H.
  destruct (existsb _ _); injection H as <- <-; reflexivity.
Qed.

Lemma keeps_pool_check (unused : list nat) : keeps (pool_check unused).
Proof. unfold pool_check. apply keeps_ite; [apply keeps_raise | apply keeps_ret]. Qed.

Lemma keeps_fetch (unused : list nat) :
  keeps (fun s : State => (fetch_training_data (st_db s) unused, s)).
Proof. intros s r s' H. injection H as <- <-. destruct (fetch_training_data _ _); reflexivity. Qed.

#[local] Hint Resolve keeps_epoch_updates keeps_validate_base keeps_check_version_free
  keeps_pool_check keeps_fetch : keeps.

(** What the final commit writes: one model row and one session row with the
    ids the run fetched. *)
Definition committed (unused : list nat) (t : Tables) (mv : ModelVersion) (s' : State) : Prop :=
  tables s' = mkTables (app (t_models t) [mv])
                (app (t_sessions t) [mkTrainingSession nid unused])
                (t_farm t) (t_ledger t) /\
  mv_id mv = nid /\ status mv = COMPLETED /\ is_deployed mv = false /\
  training_data_count mv = Some (List.length unused).

Lemma commit_ok (unused : list nat) :
  ok (commit_model_and_session p nid now unused) (committed unused).
Proof.
  intros s r s' H. unfold commit_model_and_session in H. injection H as <- <-.
  unfold committed, tables. simpl. repeat split.
Qed.

Lemma train_after_clean_ok (base : option ModelVersion) (unused : list nat) (df : list Row) :
  ok (train_after_clean rt p task el nid now base unused df) (committed unused).
Proof.
  unfold train_after_clean.
  do 7 keeps_step.
  destruct (train_with_callbacks rt _ _ _ _) as [eps fres].
  do 9 keeps_step.
  apply commit_ok.
Qed.

Lemma train_from_fetch_ok (base : option ModelVersion) (unused : list nat) :
  ok (train_from_fetch rt p task el nid now base unused) (committed unused).
Proof.
  unfold train_from_fetch.
  do 4 keeps_step.
  apply train_after_clean_ok.
Qed.

(** [get_unused_farm_data] reads only the session and farm-data tables. *)
Definition unused_of (t : Tables) : list nat :=
  get_unused_farm_data (mkDB (t_models t) (t_sessions t) (t_farm t) []).

Lemma train_model_ok :
  ok (train_model rt p task el nid now) (fun t mv s' => committed (unused_of t) t mv s').
Proof.
  unfold train_model.
  do 4 keeps_step.
  eapply ok_bind_gets.
  - intros unused. apply ok_bind_keeps; [apply keeps_pool_check | intros _].
    apply train_from_fetch_ok.
  - intros s y s' H. exact H.
Qed.

End Run.

(** Equal [tables] mean equal tables. *)
Lemma tables_models (a b : State) : tables a = tables b -> models (st_db a) = models (st_db b).
Proof. intros H. exact (f_equal t_models H). Qed.

Lemma tables_sessions (a b : State) : tables a = tables b -> sessions (st_db a) = sessions (st_db b).
Proof. intros H. exact (f_equal t_sessions H). Qed.

Lemma tables_farm (a b : State) : tables a = tables b -> farm_data (st_db a) = farm_data (st_db b).
Proof. intros H. exact (f_equal t_farm H). Qed.


Lemma get_unused_tables (a b : State) :
  tables a = tables b -> get_unused_farm_data (st_db a) = get_unused_farm_data (st_db b).
Proof.
  intros H. unfold get_unused_farm_data.
  rewrite (tables_sessions a b H), (tables_farm a b H). reflexivity.
Qed.

Lemma unused_of_tables (s : State) : unused_of (tables s) = get_unused_farm_data (st_db s).
Proof. reflexivity. Qed.

Lemma bind_inr {A B} (c : M A) (k : A -> M B) (s s1 : State) (x : A) :
  c s = (inr x, s1) -> bind c k s = k x s1.
Proof. intros H. unfold bind. rewrite H. reflexivity. Qed.

Lemma bind_inl {A B} (c : M A) (k : A -> M B) (s s1 : State) (e : Exn) :
  c s = (inl e, s1) -> bind c k s = (inl e, s1).
Proof. intros H. unfold bind. rewrite H. reflexivity. Qed.

Lemma update_progress_inr (task : option nat) (el : bool) (epochs : nat)
    (stage : string) (pct : Q) (epoch : option nat) (s : State) :
  exists s1, update_progress task el epochs stage pct epoch s = (inr tt, s1) /\
             tables s1 = tables s.
Proof.
  destruct (update_progress task el epochs stage pct epoch s) as [r s1] eqn:E.
  exists s1. pose proof (keeps_update_progress task el epochs stage pct epoch s r s1 E) as Ht.
  assert (Hr : r = inr tt).
  { unfold update_progress in E.
    destruct task as [tid|]; [destruct (find_task (tasks (st_db s)) tid)|];
      injection E as <- _; reflexivity. }
  subst r. split; [reflexivity | exact Ht].
Qed.

Lemma validate_base_models (p : TrainParams) (a b : State) :
  models (st_db a) = models (st_db b) -> validate_base p a = (fst (validate_base p b), a).
Proof.
  intros H. unfold validate_base. rewrite H.
  destruct (tp_base_model_id p); [destruct (get_model_by_id _ _) as [m|]|]; try reflexivity.
  destruct (ModelStatus_eqb (status m) COMPLETED); reflexivity.
Qed.

Lemma check_version_free_models (p : TrainParams) (a b : State) :
  models (st_db a) = models (st_db b) -> check_version_free p a = (fst (check_version_free p b), a).
Proof.
  intros H. unfold check_version_free. rewrite H.
  destruct (existsb _ _); reflexivity.
Qed.

Lemma fetch_farm (a b : DB) (ids : list nat) :
  farm_data a = farm_data b -> fetch_training_data a ids = fetch_training_data b ids.
Proof. intros H. unfold fetch_training_data. rewrite H. reflexivity. Qed.


Lemma update_task_row (tid : nat) (f : TrainingTask -> TrainingTask) (db : DB) (t : TrainingTask) :
  In t (tasks (update_task tid f db)) -> task_id t = tid ->
  (forall x, task_id (f x) = task_id x) ->
  exists x, In x (tasks db) /\ task_id x = tid /\ t = f x.
Proof.
  intros Hin Hid Hf. unfold update_task in Hin. simpl in Hin.
  apply in_map_iff in Hin as [x [Heq Hx]].
  destruct (Nat.eqb (task_id x) tid) eqn:E.
  - apply Nat.eqb_eq in E. exists x. auto.
  - subst t. apply Nat.eqb_neq in E. contradiction.
Qed.





(** Order preserves membership. *)
Lemma insert_by_time_in (x : FarmData) (l : list FarmData) (y : FarmData) :
  In y (insert_by_time x l) <-> y = x \/ In y l.
Proof.
  induction l as [|z r IH]; simpl.
  - split; [intros [H|[]]; left; congruence | intros [H|[]]; left; congruence].
  - destruct (Z.ltb (recorded_at x) (recorded_at z)); simpl.
    + split; intros [H|H]; try (left; congruence); right; exact H.
    + rewrite IH. split.
      * intros [H|[H|H]]; [right; left; exact H | left; congruence | right; right; exact H].
      * intros [H|[H|H]]; [right; left; congruence | left; exact H | right; right; exact H].
Qed.

Lemma sort_by_time_in (l : list FarmData) (y : FarmData) :
  In y (sort_by_time l) <-> In y l.
Proof.
  induction l as [|x r IH]; simpl; [tauto|].
  rewrite (insert_by_time_in x (sort_by_time r) y), IH.
  split; intros [H|H]; [left; congruence | right; exact H | left; congruence | right; exact H].
Qed.

(** A concrete runtime whose every stage succeeds and whose cleaning keeps
    every row, and one whose deduplication keeps the first ten rows. *)
Definition rt_ok : Runtime unit unit unit unit unit unit :=
  mkRuntime unit unit unit unit unit unit
    (fun df => df) (fun df => df) (fun df => df) (fun df => df) (fun df => df)
    (fun _ => inr tt) (fun _ => inr tt) (fun _ _ => inr tt)
    (fun _ _ _ _ => ([], inr tt)) (fun _ _ _ => inr tt)
    (fun _ _ => inr tt) (fun _ _ => inr tt).

Definition rt_dedup_10 : Runtime unit unit unit unit unit unit :=
  mkRuntime unit unit unit unit unit unit
    (fun df => df) (fun df => df) (fun df => df) (fun df => df) (fun df => firstn 10 df)
    (fun _ => inr tt) (fun _ => inr tt) (fun _ _ => inr tt)
    (fun _ _ _ _ => ([], inr tt)) (fun _ _ _ => inr tt)
    (fun _ _ => inr tt) (fun _ _ => inr tt).

(** [n] verified farm records with weight and length, one PENDING ledger row. *)
Definition farm_record (n : nat) : FarmData :=
  mkFarmData n 0 [] (Some 1%Q) (Some 1%Q) true None (Z.of_nat n).

Definition pending_task (tid : nat) : TrainingTask :=
  mkTrainingTask tid None "2.0.0"%string T_PENDING 0%Q None None None None None None None.

Definition pool_state (n : nat) : State :=
  mkState (mkDB [] [] (map farm_record (seq 0 n)) [pending_task 0]) init_bus.

Definition params0 : TrainParams :=
  mkTrainParams None "2.0.0"%string 0 3 32 (1 # 1000)%Q None.

Definition is_ok {A} (r : Exn + A) : bool :=
  match r with inr _ => true | inl _ => false end.

(** C10: a record whose stored [fish_weight] is zero passes [eligible] as soon
    as its length is present and it is verified, yet [record_to_row] maps it to
    a missing weight and [targets_present] drops it; every row
    [fetch_training_data] returns comes from a fetched record whose weight is
    non-zero, converted to grams. *)
Theorem fetch_training_data_zero_weight :
  (forall (r : FarmData) (w : Q), fish_weight r = Some w -> (w == 0)%Q ->
     eligible r = match fish_length r with Some _ => verified r | None => false end /\
     r_fish_weight (record_to_row r) = None /\
     targets_present (record_to_row r) = false) /\
  (forall (db : DB) (ids : list nat) (df : list Row),
     fetch_training_data db ids = inr df ->
     forall row, In row df ->
       exists r, In r (farm_data db) /\ mem (fd_id r) ids = true /\ row = record_to_row r /\
         exists w, fish_weight r = Some w /\ ~ (w == 0)%Q /\
                   r_fish_weight row = Some (w * 1000)%Q).
Proof.
  split.
  - intros r w Hw Hz.
    assert (Ht : truthy_Q (fish_weight r) = false).
    { rewrite Hw. unfold truthy_Q. apply Qeq_bool_iff in Hz. rewrite Hz. reflexivity. }
    split; [unfold eligible; rewrite Hw; reflexivity|].
    unfold targets_present, record_to_row. simpl. rewrite Ht. split; reflexivity.
  - intros db ids df H row Hin. unfold fetch_training_data in H.
    destruct (sort_by_time (filter (fun r => mem (fd_id r) ids) (farm_data db))) as [|f l] eqn:Es;
      [discriminate|].
    destruct (filter targets_present (map record_to_row (f :: l))) as [|g k] eqn:Ef;
      [discriminate|].
    injection H as <-. rewrite <- Ef in Hin.
    apply filter_In in Hin as [Hin Htp]. apply in_map_iff in Hin as [r [<- Hr]].
    rewrite <- Es in Hr. apply sort_by_time_in, filter_In in Hr as [Hr Hm].
    exists r. split; [exact Hr|]. split; [exact Hm|]. split; [reflexivity|].
    unfold targets_present, record_to_row in Htp. simpl in Htp.
    unfold record_to_row. simpl.
    destruct (truthy_Q (fish_weight r)) eqn:Et; [|discriminate].
    destruct (fish_weight r) as [w|]; [|discriminate].
    exists w. split; [reflexivity|]. split; [|reflexivity].
    intros Hz. unfold truthy_Q in Et. apply Qeq_bool_iff in Hz. rewrite Hz in Et. discriminate.
Qed.

(** C2 (as amended): the unused-id set of any database is disjoint from the
    [farm_data_ids] of its session rows; a successful [train_model], whatever
    the runtime's cleaning does to the rows, appends one session row whose
    [farm_data_ids] is exactly the unused-id set of the state it started from,
    and afterwards none of those ids is unused. *)
Theorem train_model_records_fetched_ids {Split Net Fitted Metrics Files Uploaded : Type}
    (rt : Runtime Split Net Fitted Metrics Files Uploaded)
    (p : TrainParams) (task : option nat) (el : bool) (nid : nat) (now : Z)
    (s s' : State) (mv : ModelVersion) :
  train_model rt p task el nid now s = (inr mv, s') ->
  (forall (db : DB) (i : nat), In i (get_unused_farm_data db) -> ~ In i (used_data_ids (sessions db))) /\
  sessions (st_db s') =
    app (sessions (st_db s)) [mkTrainingSession nid (get_unused_farm_data (st_db s))] /\
  mv_id mv = nid /\
  (forall i, In i (get_unused_farm_data (st_db s)) -> ~ In i (get_unused_farm_data (st_db s'))).
Proof.
  intros H.
  assert (Hdisj : forall (db : DB) (i : nat),
            In i (get_unused_farm_data db) -> ~ In i (used_data_ids (sessions db))).
  { intros db i Hi Hu. unfold get_unused_farm_data in Hi.
    apply nodup_In, filter_In in Hi as [_ Hn].
    assert (mem i (used_data_ids (sessions db)) = true) as Hm.
    { unfold mem. apply existsb_exists. exists i. split; [exact Hu | apply Nat.eqb_refl]. }
    rewrite Hm in Hn. discriminate. }
  destruct (train_model_ok rt p task el nid now s _ _ H) as [Ht [Hid _]].
  rewrite unused_of_tables in Ht.
  assert (Hs : sessions (st_db s') =
                 app (sessions (st_db s)) [mkTrainingSession nid (get_unused_farm_data (st_db s))])
    by exact (f_equal t_sessions Ht).
  split; [exact Hdisj|]. split; [exact Hs|]. split; [exact Hid|].
  intros i Hi Hi'. apply (Hdisj (st_db s') i Hi'). rewrite Hs.
  unfold used_data_ids. rewrite flat_map_app. apply in_or_app. right. simpl.
  rewrite app_nil_r. exact Hi.
Qed.

(** C2 counterexample: the ids of a run are consumed only while its session
    row exists. A run over 100 unused records succeeds and records them;
    [delete_model] on the new model removes its session row with it, and
    record 0 is unused again, so a later run is offered it. *)
Example train_model_ids_reoffered_counterexample :
  let r := train_model rt_ok params0 None false 7 0%Z (pool_state 100) in
  is_ok (fst r) = true /\
  mem 0 (used_data_ids (sessions (st_db (snd r)))) = true /\
  match delete_model (st_db (snd r)) 7 with
  | inr db => mem 0 (get_unused_farm_data db)
  | inl _ => false
  end = true.
Proof. vm_compute. split; [reflexivity | split; reflexivity]. Qed.






(** C5: once the base model and the version pass validation, the pool check
    raises "Insufficient unused farm data: <n> samples (minimum 100
    required)", with <n> the pool size, exactly when the unused pool has
    fewer than 100 ids, with the tables untouched and before the fetch; with
    100 or more the run is the fetch stage [train_from_fetch] over that
    pool. *)
Theorem train_model_pool_floor {Split Net Fitted Metrics Files Uploaded : Type}
    (rt : Runtime Split Net Fitted Metrics Files Uploaded)
    (p : TrainParams) (task : option nat) (el : bool) (nid : nat) (now : Z) (s : State) :
  (forall b, tp_base_model_id p = Some b ->
     exists m, get_model_by_id (models (st_db s)) b = Some m /\ status m = COMPLETED) ->
  existsb (fun m => String.eqb (version m) (tp_new_version p)) (models (st_db s)) = false ->
  (List.length (get_unused_farm_data (st_db s)) < 100 ->
     exists s', train_model rt p task el nid now s =
                  (inl (ValueError ("Insufficient unused farm data: "
                                    ++ nat_str (List.length (get_unused_farm_data (st_db s)))
                                    ++ " samples (minimum 100 required)")), s') /\
                tables s' = tables s) /\
  (100 <= List.length (get_unused_farm_data (st_db s)) ->
     exists base s1, tables s1 = tables s /\
       train_model rt p task el nid now s =
         train_from_fetch rt p task el nid now base (get_unused_farm_data (st_db s)) s1).
Proof.
  intros Hval Hver.
  destruct (update_progress_inr task el (tp_epochs p) "Validating base model" 5 None s)
    as [s1 [E1 Ht1]].
  assert (Hm1 := tables_models _ _ Ht1).
  assert (Hv : exists base, validate_base p s1 = (inr base, s1)).
  { rewrite (validate_base_models p s1 s Hm1). unfold validate_base.
    destruct (tp_base_model_id p) as [b|] eqn:Hb; [|eexists; reflexivity].
    destruct (Hval b eq_refl) as [m [Hm Hst]]. rewrite Hm, Hst.
    eexists. reflexivity. }
  destruct Hv as [base Ev].
  assert (Ec : check_version_free p s1 = (inr tt, s1)).
  { rewrite (check_version_free_models p s1 s Hm1). unfold check_version_free.
    rewrite Hver. reflexivity. }
  destruct (update_progress_inr task el (tp_epochs p) "Fetching training data" 10 None s1)
    as [s2 [E2 Ht2]].
  assert (Ht : tables s2 = tables s) by congruence.
  assert (Hrun : train_model rt p task el nid now s =
                   (pool_check (get_unused_farm_data (st_db s)) ;;;
                    train_from_fetch rt p task el nid now base (get_unused_farm_data (st_db s))) s2).
  { unfold train_model.
    rewrite (bind_inr _ _ _ _ _ E1), (bind_inr _ _ _ _ _ Ev), (bind_inr _ _ _ _ _ Ec),
      (bind_inr _ _ _ _ _ E2).
    unfold bind at 1, gets. rewrite (get_unused_tables s2 s Ht). reflexivity. }
  rewrite Hrun. unfold pool_check. split.
  - intros Hlt. apply Nat.ltb_lt in Hlt. rewrite Hlt. exists s2. split; [reflexivity | exact Ht].
  - intros Hge. assert (Nat.ltb (List.length (get_unused_farm_data (st_db s))) 100 = false)
      as Hf by (apply Nat.ltb_ge; exact Hge).
    rewrite Hf. exists base, s2. split; [exact Ht | reflexivity].
Qed.

Lemma train_model_pool_floor_witness :
  (exists s', train_model rt_ok params0 None false 7 0%Z (pool_state 99) =
                (inl (ValueError "Insufficient unused farm data: 99 samples (minimum 100 required)"),
                 s') /\
              tables s' = tables (pool_state 99)) /\
  (exists base s1, tables s1 = tables (pool_state 100) /\
     train_model rt_ok params0 None false 7 0%Z (pool_state 100) =
       train_from_fetch rt_ok params0 None false 7 0%Z base
         (get_unused_farm_data (st_db (pool_state 100))) s1).
Proof.
  split.
  - apply (train_model_pool_floor rt_ok params0 None false 7 0%Z (pool_state 99)).
    + intros b Hb. discriminate.
    + reflexivity.
    + apply Nat.ltb_lt. vm_compute. reflexivity.
  - apply (train_model_pool_floor rt_ok params0 None false 7 0%Z (pool_state 100)).
    + intros b Hb. discriminate.
    + reflexivity.
    + apply Nat.ltb_ge. vm_compute. reflexivity.
Defined.

(** C6 counterexample: the floor is not re-checked after cleaning. With 100
    fetched rows and a deduplication that keeps 10 of them, the run
    succeeds. *)
Example train_model_no_post_cleaning_floor_counterexample :
  let s := pool_state 100 in
  is_ok (fst (train_model rt_dedup_10 params0 None false 7 0%Z s)) = true /\
  match fetch_training_data (st_db s) (get_unused_farm_data (st_db s)) with
  | inr df => Nat.eqb (List.length df) 100 &&
              Nat.eqb (List.length (preprocess_training_data rt_dedup_10 df)) 10
  | inl _ => false
  end = true.
Proof. vm_compute. split; reflexivity. Qed.

(** C6 (as amended): the 100-row floor is checked on the fetched rows (after
    the fetch's missing-target filter), before the cleaning stage; below it
    the run raises "Insufficient data for training: <n> samples available
    (minimum 100 required before preprocessing). Please sync more verified
    farm data entries." with the tables untouched, and from 100 rows on the run
    moves on to splitting with the cleaned rows, whatever their number. *)
Theorem train_from_fetch_floor_before_cleaning {Split Net Fitted Metrics Files Uploaded : Type}
    (rt : Runtime Split Net Fitted Metrics Files Uploaded)
    (p : TrainParams) (task : option nat) (el : bool) (nid : nat) (now : Z)
    (base : option ModelVersion) (unused : list nat) (s : State) (df : list Row) :
  fetch_training_data (st_db s) unused = inr df ->
  (List.length df < 100 ->
     exists s', train_from_fetch rt p task el nid now base unused s =
       (inl (ValueError ("Insufficient data for training: " ++ nat_str (List.length df)
                        ++ " samples available (minimum 100 required before preprocessing). "
                        ++ "Please sync more verified farm data entries.")), s') /\
       tables s' = tables s) /\
  (100 <= List.length df ->
     exists s', tables s' = tables s /\
       train_from_fetch rt p task el nid now base unused s =
         train_after_clean rt p task el nid now base unused (preprocess_training_data rt df) s').
Proof.
  intros Hf.
  destruct (update_progress_inr task el (tp_epochs p) "Processing features" 15 None s)
    as [s1 [E1 Ht1]].
  assert (Ef : fetch_training_data (st_db s1) unused = inr df).
  { rewrite (fetch_farm (st_db s1) (st_db s) unused (tables_farm _ _ Ht1)). exact Hf. }
  unfold train_from_fetch. rewrite (bind_inr _ _ _ _ _ E1).
  rewrite (bind_inr (fun s0 => (fetch_training_data (st_db s0) unused, s0)) _ s1 s1 df)
    by (rewrite Ef; reflexivity).
  split.
  - intros Hlt. apply Nat.ltb_lt in Hlt. rewrite Hlt.
    exists s1. split; [reflexivity | exact Ht1].
  - intros Hge. assert (Nat.ltb (List.length df) 100 = false) as Hn by (apply Nat.ltb_ge; exact Hge).
    rewrite Hn. rewrite (bind_inr (ret tt) _ s1 s1 tt eq_refl).
    destruct (update_progress_inr task el (tp_epochs p) "Cleaning and preprocessing data" 17 None s1)
      as [s2 [E2 Ht2]].
    rewrite (bind_inr _ _ _ _ _ E2). exists s2. split; [congruence | reflexivity].
Qed.

Lemma train_from_fetch_floor_before_cleaning_witness :
  let s := pool_state 100 in
  let unused := get_unused_farm_data (st_db s) in
  match fetch_training_data (st_db s) unused with
  | inr df =>
      (List.length df < 100 ->
         exists s', train_from_fetch rt_dedup_10 params0 None false 7 0%Z None unused s =
           (inl (ValueError ("Insufficient data for training: " ++ nat_str (List.length df)
                        ++ " samples available (minimum 100 required before preprocessing). "
                        ++ "Please sync more verified farm data entries.")), s') /\
           tables s' = tables s) /\
      (100 <= List.length df ->
         exists s', tables s' = tables s /\
           train_from_fetch rt_dedup_10 params0 None false 7 0%Z None unused s =
             train_after_clean rt_dedup_10 params0 None false 7 0%Z None unused
               (preprocess_training_data rt_dedup_10 df) s')
  | inl _ => False
  end.
Proof.
  cbv zeta.
  destruct (fetch_training_data (st_db (pool_state 100))
              (get_unused_farm_data (st_db (pool_state 100)))) as [e|df] eqn:E.
  - vm_compute in E. discriminate.
  - exact (train_from_fetch_floor_before_cleaning rt_dedup_10 params0 None false 7 0%Z None
             (get_unused_farm_data (st_db (pool_state 100))) (pool_state 100) df E).
Defined.

Lemma train_model_records_fetched_ids_witness :
  match train_model rt_ok params0 None false 7 0%Z (pool_state 100) with
  | (inr mv, s') =>
      (forall (db : DB) (i : nat), In i (get_unused_farm_data db) ->
         ~ In i (used_data_ids (sessions db))) /\
      sessions (st_db s') =
        app (sessions (st_db (pool_state 100)))
          [mkTrainingSession 7 (get_unused_farm_data (st_db (pool_state 100)))] /\
      mv_id mv = 7 /\
      (forall i, In i (get_unused_farm_data (st_db (pool_state 100))) ->
         ~ In i (get_unused_farm_data (st_db s')))
  | (inl _, _) => False
  end.
Proof.
  destruct (train_model rt_ok params0 None false 7 0%Z (pool_state 100)) as [[e|mv] s'] eqn:E.
  - vm_compute in E. discriminate.
  - exact (train_model_records_fetched_ids rt_ok params0 None false 7 0%Z (pool_state 100) s' mv E).
Defined.

End TrainingFacts.

(* ------------------------------------------------------------------ *)
(** ** Undeploy, archive, delete and the listing services *)
Module CatalogFacts.
Import Registry Catalog Training RegistryFacts.

Lemma get_model_by_id_map (h : ModelVersion -> ModelVersion) (ms : list ModelVersion) (i : nat) :
  (forall r, mv_id (h r) = mv_id r) ->
  get_model_by_id (map h ms) i = option_map h (get_model_by_id ms i).
Proof.
  intros Hh. unfold get_model_by_id. rewrite find_map_eq. f_equal.
  apply find_ext_eq. intros x. rewrite Hh. reflexivity.
Qed.

(** The row replacement of [undeploy_model] and [archive_model]. *)
Lemma get_model_by_id_replace (ms : list ModelVersion) (i : nat) (model m' : ModelVersion) :
  get_model_by_id ms i = Some model -> mv_id m' = i ->
  get_model_by_id (map (fun r => if Nat.eqb (mv_id r) i then m' else r) ms) i = Some m'.
Proof.
  intros Hg Hid. rewrite get_model_by_id_map, Hg.
  - destruct (get_model_by_id_in _ _ _ Hg) as [_ Hmi]. simpl. rewrite Hmi, Nat.eqb_refl. reflexivity.
  - intros r. destruct (Nat.eqb (mv_id r) i) eqn:E; [apply Nat.eqb_eq in E; congruence | reflexivity].
Qed.

Lemma in_replace_other (ms : list ModelVersion) (i : nat) (m' r : ModelVersion) :
  In r (map (fun r => if Nat.eqb (mv_id r) i then m' else r) ms) -> mv_id r <> i -> mv_id m' = i ->
  In r ms.
Proof.
  intros Hr Hne Hid. apply in_map_iff in Hr as [x [Hx Hxin]].
  destruct (Nat.eqb (mv_id x) i); [subst r; contradiction | subst; exact Hxin].
Qed.

Lemma insert_created_desc_perm (x : ModelVersion) (l : list ModelVersion) :
  Permutation (insert_created_desc x l) (x :: l).
Proof.
  induction l as [|y r IH]; simpl; [reflexivity|].
  destruct (Z.leb (created_at y) (created_at x)); [reflexivity|].
  eapply perm_trans; [apply perm_skip; exact IH | apply perm_swap].
Qed.

Lemma sort_created_desc_perm (l : list ModelVersion) : Permutation (sort_created_desc l) l.
Proof.
  induction l as [|x r IH]; simpl; [reflexivity|].
  eapply perm_trans; [apply insert_created_desc_perm | apply perm_skip; exact IH].
Qed.

Definition created_desc (a b : ModelVersion) : Prop := (created_at b <= created_at a)%Z.

Lemma insert_created_desc_sorted (x : ModelVersion) (l : list ModelVersion) :
  StronglySorted created_desc l -> StronglySorted created_desc (insert_created_desc x l).
Proof.
  induction l as [|y r IH]; simpl; intros H.
  - repeat constructor.
  - inversion H as [|? ? Hr Hall]; subst.
    destruct (Z.leb (created_at y) (created_at x)) eqn:E.
    + apply Z.leb_le in E. constructor; [exact H|]. constructor; [exact E|].
      eapply Forall_impl; [|exact Hall]. unfold created_desc. intros a Ha. lia.
    + apply Z.leb_gt in E. constructor; [apply IH; exact Hr|].
      apply Forall_forall. intros a Ha.
      apply (Permutation_in _ (insert_created_desc_perm x r)) in Ha.
      destruct Ha as [<-|Ha]; [unfold created_desc; lia|].
      rewrite Forall_forall in Hall. apply Hall. exact Ha.
Qed.

Lemma sort_created_desc_sorted (l : list ModelVersion) :
  StronglySorted created_desc (sort_created_desc l).
Proof.
  induction l as [|x r IH]; simpl; [constructor|]. apply insert_created_desc_sorted. exact IH.
Qed.

(** [get_all_models] lists the table's rows (without the archived ones unless
    asked), each once, newest first. *)
Theorem get_all_models_spec (ms : list ModelVersion) (include_archived : bool) :
  Permutation (get_all_models ms include_archived)
    (if include_archived then ms
     else filter (fun m => negb (ModelStatus_eqb (status m) ARCHIVED)) ms) /\
  Sorted (fun a b => (created_at b <= created_at a)%Z) (get_all_models ms include_archived) /\
  (forall m, In m (get_all_models ms include_archived) <->
             In m ms /\ (include_archived = true \/ status m <> ARCHIVED)).
Proof.
  split; [apply sort_created_desc_perm|]. split.
  - apply StronglySorted_Sorted. apply sort_created_desc_sorted.
  - intros m. unfold get_all_models.
    split.
    + intros H. apply (Permutation_in _ (sort_created_desc_perm _)) in H.
      destruct include_archived; [auto|].
      apply filter_In in H as [H1 H2]. split; [exact H1|]. right. intros E.
      rewrite E in H2. discriminate.
    + intros [H1 H2]. apply (Permutation_in _ (Permutation_sym (sort_created_desc_perm _))).
      destruct include_archived; [exact H1|]. apply filter_In. split; [exact H1|].
      destruct H2 as [H2|H2]; [discriminate|]. destruct (status m); simpl; congruence.
Qed.

(** In a consistent registry the deployed model named by [list_all_models]
    is among the listed rows, with or without the archived ones. *)
Theorem list_all_models_deployed_listed (ms : list ModelVersion) (include_archived : bool) :
  registry_wf ms ->
  ml_total_count (list_all_models ms include_archived) =
    List.length (ml_models (list_all_models ms include_archived)) /\
  forall i, ml_deployed_model_id (list_all_models ms include_archived) = Some i ->
    exists d, In d (ml_models (list_all_models ms include_archived)) /\ mv_id d = i /\
              is_deployed d = true /\ status d = DEPLOYED.
Proof.
  intros [_ Hc]. split; [reflexivity|]. intros i Hi. simpl in Hi.
  destruct (get_deployed_model ms) as [d|] eqn:Ed; [|discriminate].
  injection Hi as <-. exists d.
  apply first_desc_in, filter_In in Ed as [Hin Hdep].
  pose proof (Hc d Hin Hdep) as Hst.
  split; [|auto]. simpl. apply (proj2 (proj2 (get_all_models_spec ms include_archived)) d).
  split; [exact Hin|]. right. rewrite Hst. discriminate.
Qed.

Lemma list_all_models_deployed_listed_witness :
  let ms := [mkModelVersion 1 "1.0.0" None None ARCHIVED false false None 0 None None;
             mkModelVersion 2 "2.0.0" None None DEPLOYED true true None 1 (Some 2%Z) None] in
  ml_total_count (list_all_models ms false) =
    List.length (ml_models (list_all_models ms false)) /\
  forall i, ml_deployed_model_id (list_all_models ms false) = Some i ->
    exists d, In d (ml_models (list_all_models ms false)) /\ mv_id d = i /\
              is_deployed d = true /\ status d = DEPLOYED.
Proof.
  apply list_all_models_deployed_listed. split.
  - repeat constructor; simpl; intuition discriminate.
  - intros m [<-|[<-|[]]] H; [discriminate | reflexivity].
Defined.

(** [deploy_model] on the model currently deployed, in a consistent registry,
    raises "Can only deploy completed models, got status:
    ModelStatus.DEPLOYED": the status check comes before the already-deployed
    return. *)
Theorem deploy_model_deployed_target_fails (now : Z) (ms : list ModelVersion) (i : nat)
    (nts : option string) (m : ModelVersion) :
  registry_wf ms -> get_model_by_id ms i = Some m -> is_deployed m = true ->
  deploy_model now ms i nts
  = inl (ValueError "Can only deploy completed models, got status: ModelStatus.DEPLOYED").
Proof.
  intros [_ Hc] Hg Hd. destruct (get_model_by_id_in _ _ _ Hg) as [Hin _].
  unfold deploy_model. rewrite Hg, (Hc m Hin Hd). reflexivity.
Qed.

Lemma deploy_model_deployed_target_fails_witness :
  deploy_model 9 [mkModelVersion 1 "1.0.0" None None DEPLOYED true true None 0 (Some 3%Z) None] 1 None
  = inl (ValueError "Can only deploy completed models, got status: ModelStatus.DEPLOYED").
Proof.
  apply (deploy_model_deployed_target_fails 9
           [mkModelVersion 1 "1.0.0" None None DEPLOYED true true None 0 (Some 3%Z) None] 1 None
           (mkModelVersion 1 "1.0.0" None None DEPLOYED true true None 0 (Some 3%Z) None)).
  - split; [repeat constructor; simpl; intuition discriminate|].
    intros m [<-|[]] _. reflexivity.
  - reflexivity.
  - reflexivity.
Defined.

(** [undeploy_model] leaves the row undeployed (its status back to COMPLETED
    if it was deployed, [deployed_at] and [notes] kept), touches no other row,
    and a second call changes nothing. *)
Theorem undeploy_model_spec (ms ms' : list ModelVersion) (i : nat) (m : ModelVersion) :
  undeploy_model ms i = inr (m, ms') ->
  is_deployed m = false /\ mv_id m = i /\ get_model_by_id ms' i = Some m /\
  undeploy_model ms' i = inr (m, ms') /\
  (forall r, In r ms' -> mv_id r <> i -> In r ms) /\
  exists model, get_model_by_id ms i = Some model /\
    (is_deployed model = true ->
       status m = COMPLETED /\ deployed_at m = deployed_at model /\ notes m = notes model) /\
    (is_deployed model = false -> m = model /\ ms' = ms).
Proof.
  intros H. unfold undeploy_model in H.
  destruct (get_model_by_id ms i) as [model|] eqn:Eg; [|discriminate].
  destruct (get_model_by_id_in _ _ _ Eg) as [Hin Hid].
  destruct (is_deployed model) eqn:Ed; simpl in H.
  - injection H as <- <-.
    assert (Hg' := get_model_by_id_replace ms i model
                     (set_deploy_fields model false COMPLETED (deployed_at model) (notes model))
                     Eg Hid).
    split; [reflexivity|]. split; [exact Hid|]. split; [exact Hg'|]. split.
    + unfold undeploy_model. rewrite Hg'. reflexivity.
    + split; [intros r Hr Hne; exact (in_replace_other _ _ _ _ Hr Hne Hid)|].
      exists model. split; [reflexivity|]. split; [intros _; auto | intros Hf; congruence].
  - injection H as <- <-. split; [exact Ed|]. split; [exact Hid|]. split; [exact Eg|].
    split; [unfold undeploy_model; rewrite Eg, Ed; reflexivity|].
    split; [auto|]. exists model. split; [reflexivity|]. split; [intros Hf; congruence | auto].
Qed.

Lemma undeploy_model_spec_witness :
  let m := mkModelVersion 1 "1.0.0" None None DEPLOYED true true None 0 (Some 3%Z) None in
  let m' := mkModelVersion 1 "1.0.0" None None COMPLETED false true None 0 (Some 3%Z) None in
  is_deployed m' = false /\ mv_id m' = 1 /\ get_model_by_id [m'] 1 = Some m' /\
  undeploy_model [m'] 1 = inr (m', [m']) /\
  (forall r, In r [m'] -> mv_id r <> 1 -> In r [m]) /\
  exists model, get_model_by_id [m] 1 = Some model /\
    (is_deployed model = true ->
       status m' = COMPLETED /\ deployed_at m' = deployed_at model /\ notes m' = notes model) /\
    (is_deployed model = false -> m' = model /\ [m'] = [m]).
Proof.
  apply (undeploy_model_spec
           [mkModelVersion 1 "1.0.0" None None DEPLOYED true true None 0 (Some 3%Z) None]
           [mkModelVersion 1 "1.0.0" None None COMPLETED false true None 0 (Some 3%Z) None] 1
           (mkModelVersion 1 "1.0.0" None None COMPLETED false true None 0 (Some 3%Z) None)).
  reflexivity.
Defined.

(** In a consistent registry, deploying a model and then undeploying it
    leaves no deployed model at all (the earlier one was undeployed by the
    deployment), and the model back at COMPLETED. *)
Theorem deploy_then_undeploy_none_deployed (now : Z) (ms ms1 ms2 : list ModelVersion) (i : nat)
    (nts : option string) (m m' : ModelVersion) :
  registry_wf ms -> deploy_model now ms i nts = inr (m, ms1) ->
  undeploy_model ms1 i = inr (m', ms2) ->
  get_deployed_model ms2 = None /\ get_model_by_id ms2 i = Some m' /\
  status m' = COMPLETED /\ is_deployed m' = false.
Proof.
  intros Hwf H1 H2.
  destruct (deploy_model_inv now ms ms1 i nts m Hwf H1)
    as [model [Eg [Hin [Hid [Hnd [Hm Hms1]]]]]].
  assert (Hkeep : forall r, mv_id (deploy_map m i r) = mv_id r).
  { intros r. unfold deploy_map. destruct (Nat.eqb (mv_id r) i) eqn:E.
    - apply Nat.eqb_eq in E. subst m. simpl. congruence.
    - destruct (is_deployed r); reflexivity. }
  assert (Eg1 : get_model_by_id ms1 i = Some m).
  { subst ms1. rewrite get_model_by_id_map, Eg by exact Hkeep. simpl.
    unfold deploy_map. rewrite Hid, Nat.eqb_refl. reflexivity. }
  assert (Hmi : mv_id m = i) by (subst m; simpl; exact Hid).
  unfold undeploy_model in H2. rewrite Eg1 in H2.
  assert (Hmd : is_deployed m = true) by (subst m; reflexivity).
  rewrite Hmd in H2. simpl in H2. injection H2 as <- <-.
  split; [|split; [apply (get_model_by_id_replace ms1 i m); [exact Eg1 | simpl; exact Hmi]
                  | split; reflexivity]].
  unfold get_deployed_model.
  assert (Hnil : filter is_deployed
                   (map (fun r => if Nat.eqb (mv_id r) i
                                  then set_deploy_fields m false COMPLETED (deployed_at m) (notes m)
                                  else r) ms1) = []).
  { apply filter_nil_iff. intros x Hx. apply in_map_iff in Hx as [y [<- Hy]].
    destruct (Nat.eqb (mv_id y) i) eqn:E; [reflexivity|].
    subst ms1. apply in_map_iff in Hy as [z [<- Hz]].
    rewrite Hkeep in E. unfold deploy_map. rewrite E.
    destruct (is_deployed z) eqn:Ez; [reflexivity | exact Ez]. }
  rewrite Hnil. reflexivity.
Qed.

Lemma deploy_then_undeploy_none_deployed_witness :
  let m1 := mkModelVersion 1 "1.0.0" None None DEPLOYED true true None 0 (Some 3%Z) None in
  let m2 := mkModelVersion 2 "2.0.0" None None COMPLETED false true None 1 None None in
  match deploy_model 9 [m1; m2] 2 None with
  | inr (m, ms1) =>
      match undeploy_model ms1 2 with
      | inr (m', ms2) =>
          get_deployed_model ms2 = None /\ get_model_by_id ms2 2 = Some m' /\
          status m' = COMPLETED /\ is_deployed m' = false
      | inl _ => False
      end
  | inl _ => False
  end.
Proof.
  cbv zeta.
  destruct (deploy_model 9 _ 2 None) as [e|[m ms1]] eqn:E1; [vm_compute in E1; discriminate|].
  destruct (undeploy_model ms1 2) as [e|[m' ms2]] eqn:E2.
  - vm_compute in E1. injection E1 as <- <-. vm_compute in E2. discriminate.
  - apply (deploy_then_undeploy_none_deployed 9
             [mkModelVersion 1 "1.0.0" None None DEPLOYED true true None 0 (Some 3%Z) None;
              mkModelVersion 2 "2.0.0" None None COMPLETED false true None 1 None None]
             ms1 ms2 2 None m m'); [| exact E1 | exact E2].
    split; [repeat constructor; simpl; intuition discriminate|].
    intros r [<-|[<-|[]]] H; [reflexivity | discriminate].
Defined.

(** [archive_model] marks the row ARCHIVED and inactive; afterwards the row
    can no longer be deployed ("Can only deploy completed models, got status:
    ModelStatus.ARCHIVED"), [get_latest_model] never returns it, and
    [get_all_models] lists it only with [include_archived]. *)
Theorem archive_model_spec (ms ms' : list ModelVersion) (i : nat) (m : ModelVersion) :
  archive_model ms i = inr (m, ms') ->
  status m = ARCHIVED /\ is_active m = false /\ is_deployed m = false /\ mv_id m = i /\
  get_model_by_id ms' i = Some m /\
  (forall now nts, deploy_model now ms' i nts =
     inl (ValueError "Can only deploy completed models, got status: ModelStatus.ARCHIVED")) /\
  get_latest_model ms' <> Some m /\
  ~ In m (get_all_models ms' false) /\ In m (get_all_models ms' true).
Proof.
  intros H. unfold archive_model in H.
  destruct (get_model_by_id ms i) as [model|] eqn:Eg; [|discriminate].
  destruct (get_model_by_id_in _ _ _ Eg) as [Hin Hid].
  destruct (is_deployed model) eqn:Ed; [discriminate|]. injection H as <- <-.
  assert (Hg' := get_model_by_id_replace ms i model (set_archived model) Eg Hid).
  destruct (get_model_by_id_in _ _ _ Hg') as [Hin' _].
  split; [reflexivity|]. split; [reflexivity|]. split; [exact Ed|]. split; [exact Hid|].
  split; [exact Hg'|]. split; [intros now nts; unfold deploy_model; rewrite Hg'; reflexivity|].
  split; [|split].
  - unfold get_latest_model. intros Hl.
    destruct (get_deployed_model _) as [d|] eqn:Edp.
    + injection Hl as ->. apply first_desc_in, filter_In in Edp as [_ Hdd].
      simpl in Hdd. congruence.
    + apply first_desc_in, filter_In in Hl as [_ Ha]. discriminate.
  - intros Hm. apply (get_all_models_spec _ false) in Hm as [_ [Hm|Hm]];
      [discriminate | apply Hm; reflexivity].
  - apply (get_all_models_spec _ true). split; [exact Hin' | left; reflexivity].
Qed.

Lemma archive_model_spec_witness :
  let m := mkModelVersion 1 "1.0.0" None None ARCHIVED false false None 0 None None in
  status m = ARCHIVED /\ is_active m = false /\ is_deployed m = false /\ mv_id m = 1 /\
  get_model_by_id [m] 1 = Some m /\
  (forall now nts, deploy_model now [m] 1 nts =
     inl (ValueError "Can only deploy completed models, got status: ModelStatus.ARCHIVED")) /\
  get_latest_model [m] <> Some m /\
  ~ In m (get_all_models [m] false) /\ In m (get_all_models [m] true).
Proof.
  apply (archive_model_spec [mkModelVersion 1 "1.0.0" None None COMPLETED false true None 0 None None]
           [mkModelVersion 1 "1.0.0" None None ARCHIVED false false None 0 None None] 1
           (mkModelVersion 1 "1.0.0" None None ARCHIVED false false None 0 None None)).
  reflexivity.
Defined.

(** [check_for_update] returns the row [get_latest_model] returns (its own
    fallback to the deployed model is the same lookup again), with an update
    flagged whenever the version string differs; [check_model_update]
    advertises an update exactly when that row's version differs from the
    client's and the app version is compatible. *)
Theorem check_model_update_spec (ms : list ModelVersion) (cv : string) (app : option string) :
  check_for_update ms cv =
    match get_latest_model ms with
    | None => (false, None)
    | Some m => (negb (String.eqb (version m) cv), Some m)
    end /\
  (uc_update_available (check_model_update ms cv app) = true <->
     exists m, get_latest_model ms = Some m /\ version m <> cv /\
               is_version_compatible m app = true) /\
  uc_latest_version (check_model_update ms cv app) =
    match get_latest_model ms with Some m => Some (version m) | None => None end /\
  uc_current_version (check_model_update ms cv app) = cv.
Proof.
  assert (Hc : check_for_update ms cv =
    match get_latest_model ms with
    | None => (false, None)
    | Some m => (negb (String.eqb (version m) cv), Some m)
    end).
  { unfold check_for_update, get_latest_model. destruct (get_deployed_model ms); reflexivity. }
  split; [exact Hc|]. unfold check_model_update. rewrite Hc.
  destruct (get_latest_model ms) as [m|].
  - destruct (String.eqb (version m) cv) eqn:E; simpl.
    + apply String.eqb_eq in E. split; [|split; reflexivity]. split; [discriminate|].
      intros [m' [Hm' [Hne _]]]. injection Hm' as <-. contradiction.
    + apply String.eqb_neq in E.
      destruct (is_version_compatible m app) eqn:C; simpl.
      * split; [|split; reflexivity]. split; [intros _; exists m; auto | reflexivity].
      * split; [|split; reflexivity]. split; [discriminate|].
        intros [m' [Hm' [_ Hc']]]. injection Hm' as <-. congruence.
  - simpl. split; [|split; reflexivity]. split; [discriminate|]. intros [m' [H _]]. discriminate.
Qed.

Lemma null_ref_ne (i : nat) (o : option nat) : null_ref i o <> Some i.
Proof.
  destruct o as [r|]; simpl; [|discriminate].
  destruct (Nat.eqb_spec r i); congruence.
Qed.

Lemma null_ref_keep (i : nat) (o : option nat) : o <> Some i -> null_ref i o = o.
Proof.
  destruct o as [r|]; simpl; [|reflexivity].
  destruct (Nat.eqb_spec r i); [subst; congruence | reflexivity].
Qed.

Lemma null_base_model_keep (i : nat) (m : ModelVersion) :
  base_model_id m <> Some i -> null_base_model i m = m.
Proof.
  intros H. unfold null_base_model, set_base_model_id. rewrite (null_ref_keep i _ H).
  destruct m; reflexivity.
Qed.

Lemma null_task_refs_keep (i : nat) (t : TrainingTask) :
  task_base_model_id t <> Some i -> result_model_id t <> Some i -> null_task_refs i t = t.
Proof.
  intros H1 H2. unfold null_task_refs.
  rewrite (null_ref_keep i _ H1), (null_ref_keep i _ H2). destruct t; reflexivity.
Qed.

Lemma result_filter_iff (i : nat) (t : TrainingTask) :
  match result_model_id t with Some r => negb (Nat.eqb r i) | None => true end = true <->
  result_model_id t <> Some i.
Proof.
  destruct (result_model_id t) as [r|]; simpl.
  - rewrite negb_true_iff, Nat.eqb_neq. split; intros H E; apply H; congruence.
  - split; [discriminate | reflexivity].
Qed.

(** [delete_model] raises "Model <id> not found" for an unknown id and
    "Cannot delete deployed model <version>. Please undeploy it first." for a
    deployed model. Otherwise: the model's row, its sessions (cascade) and the
    tasks that resulted in it are gone; every other model row and task is
    kept, with the references to the deleted model set to NULL (and
    unchanged when it has none); the farm data is unchanged, and the unused
    farm-data pool can only grow. *)
Theorem delete_model_spec :
  (forall (db : DB) (i : nat), get_model_by_id (models db) i = None ->
     delete_model db i = inl (ValueError ("Model " ++ id_str i ++ " not found"))) /\
  (forall (db : DB) (i : nat) (m : ModelVersion),
     get_model_by_id (models db) i = Some m -> is_deployed m = true ->
     delete_model db i =
       inl (ValueError ("Cannot delete deployed model " ++ version m
                        ++ ". Please undeploy it first."))) /\
  (forall (db db' : DB) (i : nat), delete_model db i = inr db' ->
     get_model_by_id (models db') i = None /\
     (forall m', In m' (models db') <->
        exists m, In m (models db) /\ mv_id m <> i /\ m' = null_base_model i m) /\
     (forall m, In m (models db') -> base_model_id m <> Some i) /\
     (forall m, In m (models db) -> mv_id m <> i -> base_model_id m <> Some i ->
        In m (models db')) /\
     (forall t, In t (sessions db') <-> In t (sessions db) /\ ts_model_version_id t <> i) /\
     (forall t', In t' (tasks db') <->
        exists t, In t (tasks db) /\ result_model_id t <> Some i /\ t' = null_task_refs i t) /\
     (forall t, In t (tasks db') ->
        task_base_model_id t <> Some i /\ result_model_id t <> Some i) /\
     (forall t, In t (tasks db) -> result_model_id t <> Some i ->
        task_base_model_id t <> Some i -> In t (tasks db')) /\
     farm_data db' = farm_data db /\
     (forall x, In x (Provenance.get_unused_farm_data db) ->
                In x (Provenance.get_unused_farm_data db'))).
Proof.
  split; [|split].
  - intros db i Hg. unfold delete_model. rewrite Hg. reflexivity.
  - intros db i m Hg Hd. unfold delete_model. rewrite Hg, Hd. reflexivity.
  - intros db db' i H. unfold delete_model in H.
    destruct (get_model_by_id (models db) i) as [m|]; [|discriminate].
    destruct (is_deployed m); [discriminate|]. injection H as <-. simpl.
    split; [|split; [|split; [|split; [|split; [|split; [|split; [|split; [|split]]]]]]]].
    + unfold get_model_by_id. destruct (find _ _) as [x|] eqn:E; [|reflexivity].
      apply find_some in E as [Hx Hxi]. apply in_map_iff in Hx as [y [<- Hy]].
      apply filter_In in Hy as [_ Hn]. cbn [null_base_model set_base_model_id mv_id] in Hxi.
      rewrite Hxi in Hn. discriminate.
    + intros m'. rewrite in_map_iff. split.
      * intros [m0 [<- Hm0]]. apply filter_In in Hm0 as [Hm0 Hn].
        rewrite negb_true_iff, Nat.eqb_neq in Hn. exists m0. auto.
      * intros [m0 [Hm0 [Hn ->]]]. exists m0. split; [reflexivity|].
        apply filter_In. split; [exact Hm0|]. apply negb_true_iff, Nat.eqb_neq. exact Hn.
    + intros m' Hm'. apply in_map_iff in Hm' as [m0 [<- _]]. apply null_ref_ne.
    + intros m0 Hm0 Hn Hb. apply in_map_iff. exists m0.
      split; [apply null_base_model_keep; exact Hb|].
      apply filter_In. split; [exact Hm0|]. apply negb_true_iff, Nat.eqb_neq. exact Hn.
    + intros t. rewrite filter_In. rewrite negb_true_iff, Nat.eqb_neq. tauto.
    + intros t'. rewrite in_map_iff. split.
      * intros [t [<- Ht]]. apply filter_In in Ht as [Ht Hr].
        apply result_filter_iff in Hr. exists t. auto.
      * intros [t [Ht [Hr ->]]]. exists t. split; [reflexivity|].
        apply filter_In. split; [exact Ht|]. apply result_filter_iff. exact Hr.
    + intros t' Ht'. apply in_map_iff in Ht' as [t [<- _]].
      split; apply null_ref_ne.
    + intros t Ht Hr Hb. apply in_map_iff. exists t.
      split; [apply null_task_refs_keep; assumption|].
      apply filter_In. split; [exact Ht|]. apply result_filter_iff. exact Hr.
    + reflexivity.
    + intros x Hx. unfold Provenance.get_unused_farm_data in *. simpl.
      apply nodup_In in Hx. apply nodup_In. apply filter_In in Hx as [Hx Hn].
      apply filter_In. split; [exact Hx|].
      apply negb_true_iff. apply negb_true_iff in Hn.
      unfold Provenance.mem, Provenance.used_data_ids in *.
      destruct (existsb (Nat.eqb x) (flat_map farm_data_ids (filter _ _))) eqn:Em;
        [|reflexivity]. rewrite <- Hn.
      apply existsb_exists in Em as [y [Hy Hxy]]. symmetry. apply existsb_exists. exists y.
      split; [|exact Hxy]. apply in_flat_map in Hy as [ss [Hss Hy]].
      apply in_flat_map. exists ss. split; [|exact Hy]. apply filter_In in Hss. tauto.
Qed.

End CatalogFacts.

(* ------------------------------------------------------------------ *)
(** ** The event bus: active set and event flag over a history *)
Module BusFacts.
Import Events TaskApi EventsFacts.

Lemma is_active_in (t : nat) (b : TrainingEventBus) :
  is_active t b = true <-> In t (active_tasks b).
Proof.
  unfold is_active. rewrite existsb_exists. split.
  - intros [u [Hu E]]. apply Nat.eqb_eq in E. subst u. exact Hu.
  - intros H. exists t. split; [exact H | apply Nat.eqb_refl].
Qed.

Lemma bus_step_nodup (b : TrainingEventBus) (o : BusOp) :
  NoDup (active_tasks b) -> NoDup (active_tasks (bus_step b o)).
Proof.
  intros H. destruct o as [u|u|u|]; simpl.
  - unfold notify_training_started. simpl. destruct (is_active u b) eqn:E; [exact H|].
    constructor; [|exact H]. intros Hin. apply is_active_in in Hin. congruence.
  - unfold notify_training_updated. destruct (is_active u b); exact H.
  - unfold notify_training_completed. simpl. apply NoDup_filter. exact H.
  - unfold wait_for_update. destruct (event_set b); exact H.
Qed.

(** The active set built by any history of notifications holds each task id
    once, and holds exactly the tasks whose latest started/completed
    notification is a started one; [get_active_task_count] is its size and
    [has_active_tasks] tells whether some task is active. *)
Theorem run_bus_active_set (ops : list BusOp) :
  NoDup (active_tasks (run_bus ops)) /\
  (forall t, In t (active_tasks (run_bus ops)) <-> active_in_history t ops = true) /\
  get_active_task_count (run_bus ops) = List.length (active_tasks (run_bus ops)) /\
  (has_active_tasks (run_bus ops) = true <-> exists t, active_in_history t ops = true).
Proof.
  assert (Hnd : NoDup (active_tasks (run_bus ops))).
  { unfold run_bus. assert (H0 : NoDup (active_tasks init_bus)) by constructor.
    revert H0. generalize init_bus. induction ops as [|o r IH]; simpl; intros b Hb; [exact Hb|].
    apply IH. apply bus_step_nodup. exact Hb. }
  assert (Hin : forall t, In t (active_tasks (run_bus ops)) <-> active_in_history t ops = true).
  { intros t. rewrite <- run_bus_active. symmetry. apply is_active_in. }
  split; [exact Hnd|]. split; [exact Hin|]. split; [reflexivity|].
  unfold has_active_tasks. rewrite Nat.ltb_lt. split.
  - destruct (active_tasks (run_bus ops)) as [|t l] eqn:E; simpl; [lia|].
    intros _. exists t. apply (proj1 (Hin t)). left. reflexivity.
  - intros [t Ht]. apply Hin in Ht. destruct (active_tasks (run_bus ops)); simpl in *; [contradiction | lia].
Qed.

End BusFacts.

(* ------------------------------------------------------------------ *)
(** ** The progress stream's change tracking *)
Module SseFacts.
Import Events TaskApi RegistryFacts.

(** The test of the stream's loop, [last_states.get(task_id) != current_state]. *)
Definition row_changed (last : LastStates) (t : TrainingTask) : bool :=
  match ls_get (task_id t) last with
  | Some v => negb (TaskState_eqb v (current_state t))
  | None => true
  end.

Lemma TaskState_eqb_refl (v : TaskState) : TaskState_eqb v v = true.
Proof.
  destruct v as [[[s p] e] g]. simpl.
  assert (Hs : TrainingTaskStatus_eqb s s = true) by (destruct s; reflexivity).
  assert (He : option_eqb Nat.eqb e e = true) by (destruct e; simpl; [apply Nat.eqb_refl | reflexivity]).
  assert (Hg : option_eqb String.eqb g g = true) by (destruct g; simpl; [apply String.eqb_refl | reflexivity]).
  rewrite Hs, Qeq_bool_refl, He, Hg. reflexivity.
Qed.

Lemma find_app' {A} (p : A -> bool) (l l' : list A) :
  find p (l ++ l') = match find p l with Some x => Some x | None => find p l' end.
Proof.
  induction l as [|a l IH]; simpl; [reflexivity|]. destruct (p a); [reflexivity | exact IH].
Qed.

Lemma find_none_existsb {A} (p : A -> bool) (l : list A) :
  existsb p l = false -> find p l = None.
Proof.
  induction l as [|a l IH]; simpl; [reflexivity|].
  destruct (p a); simpl; [discriminate | exact IH].
Qed.

Lemma find_some_existsb {A} (p : A -> bool) (l : list A) :
  existsb p l = true -> exists x, find p l = Some x.
Proof.
  induction l as [|a l IH]; simpl; [discriminate|].
  destruct (p a); simpl; [eauto | exact IH].
Qed.

Lemma ls_set_map_key (k : nat) (v : TaskState) (kv : nat * TaskState) :
  fst (if Nat.eqb (fst kv) k then (k, v) else kv) = fst kv.
Proof.
  destruct (Nat.eqb (fst kv) k) eqn:E; [apply Nat.eqb_eq in E; simpl; congruence | reflexivity].
Qed.

Lemma ls_get_set_same (k : nat) (v : TaskState) (l : LastStates) :
  ls_get k (ls_set k v l) = Some v.
Proof.
  unfold ls_get, ls_set. destruct (existsb _ l) eqn:E.
  - rewrite find_map_eq.
    rewrite (find_ext_eq _ (fun kv => Nat.eqb (fst kv) k)) by (intros x; rewrite ls_set_map_key; reflexivity).
    destruct (find_some_existsb _ _ E) as [x Hx]. rewrite Hx. simpl.
    apply find_some in Hx as [_ Hx]. rewrite Hx. reflexivity.
  - rewrite find_app', (find_none_existsb _ _ E). simpl. rewrite Nat.eqb_refl. reflexivity.
Qed.

Lemma ls_get_set_other (k k' : nat) (v : TaskState) (l : LastStates) :
  k <> k' -> ls_get k' (ls_set k v l) = ls_get k' l.
Proof.
  intros Hne. unfold ls_get, ls_set. destruct (existsb _ l) eqn:E.
  - rewrite find_map_eq.
    rewrite (find_ext_eq _ (fun kv => Nat.eqb (fst kv) k')) by (intros x; rewrite ls_set_map_key; reflexivity).
    destruct (find (fun kv => Nat.eqb (fst kv) k') l) as [x|] eqn:Hx; simpl; [|reflexivity].
    apply find_some in Hx as [_ Hx]. apply Nat.eqb_eq in Hx.
    destruct (Nat.eqb (fst x) k) eqn:Ek; [apply Nat.eqb_eq in Ek; congruence | reflexivity].
  - rewrite find_app'. destruct (find _ l); [reflexivity|]. simpl.
    destruct (Nat.eqb k k') eqn:Ek; [apply Nat.eqb_eq in Ek; contradiction | reflexivity].
Qed.

Lemma ls_keys_set (k k' : nat) (v : TaskState) (l : LastStates) :
  In k' (map fst (ls_set k v l)) <-> k' = k \/ In k' (map fst l).
Proof.
  unfold ls_set. destruct (existsb _ l) eqn:E.
  - rewrite map_map, (map_ext _ fst) by apply ls_set_map_key.
    split; [auto|]. intros [->|H]; [|exact H].
    apply existsb_exists in E as [x [Hx Ex]]. apply Nat.eqb_eq in Ex.
    apply in_map_iff. exists x. auto.
  - rewrite map_app, in_app_iff. simpl. intuition.
Qed.

Lemma ls_get_filter (k : nat) (p : nat * TaskState -> bool) (l : LastStates) :
  (forall kv, fst kv = k -> p kv = true) -> ls_get k (filter p l) = ls_get k l.
Proof.
  intros Hp. unfold ls_get. induction l as [|a l IH]; simpl; [reflexivity|].
  destruct (p a) eqn:Ea; simpl.
  - destruct (Nat.eqb (fst a) k); [reflexivity | exact IH].
  - destruct (Nat.eqb (fst a) k) eqn:Ek; [|exact IH].
    apply Nat.eqb_eq in Ek. rewrite (Hp a Ek) in Ea. discriminate.
Qed.

Lemma emit_changed_spec (last : LastStates) (rows : list TrainingTask) :
  NoDup (map task_id rows) ->
  let (ms, l') := emit_changed last rows in
  (forall k, ~ In k (map task_id rows) -> ls_get k l' = ls_get k last) /\
  (forall t, In t rows ->
     exists v, ls_get (task_id t) l' = Some v /\ TaskState_eqb v (current_state t) = true) /\
  (forall k, In k (map fst l') <-> In k (map fst last) \/ In k (map task_id rows)) /\
  (forall m, In m ms <-> exists t, m = SseData t /\ In t rows /\ row_changed last t = true).
Proof.
  revert last. induction rows as [|t r IH]; intros last Hnd; simpl.
  - split; [auto|]. split; [intros _ []|]. split; [tauto|]. split; [intros []|].
    intros [t [_ [[] _]]].
  - inversion Hnd as [|? ? Hnot Hnd']; subst.
    set (last1 := if match ls_get (task_id t) last with
                     | Some v => negb (TaskState_eqb v (current_state t))
                     | None => true end
                  then ls_set (task_id t) (current_state t) last else last).
    assert (Hl1 : forall k, k <> task_id t -> ls_get k last1 = ls_get k last).
    { intros k Hk. unfold last1. destruct (match _ with Some _ => _ | None => _ end);
        [apply ls_get_set_other; auto | reflexivity]. }
    specialize (IH last1 Hnd'). destruct (emit_changed last1 r) as [ms l2].
    destruct IH as [A [B [C D]]].
    split; [|split; [|split]].
    + intros k Hk. rewrite A by tauto. apply Hl1. intros ->. apply Hk. left. reflexivity.
    + intros t' [<-|Ht'].
      * rewrite (A (task_id t) Hnot). unfold last1.
        destruct (ls_get (task_id t) last) as [v|] eqn:Eg; simpl.
        -- destruct (TaskState_eqb v (current_state t)) eqn:Ev; simpl.
           ++ exists v. auto.
           ++ exists (current_state t). rewrite ls_get_set_same. split; [reflexivity | apply TaskState_eqb_refl].
        -- exists (current_state t). rewrite ls_get_set_same. split; [reflexivity | apply TaskState_eqb_refl].
      * apply B. exact Ht'.
    + intros k. rewrite C. unfold last1.
      destruct (match _ with Some _ => _ | None => _ end) eqn:Ec.
      * rewrite ls_keys_set. intuition.
      * split; [intuition|]. intros [H|[H|H]]; auto. subst k. left.
        destruct (ls_get (task_id t) last) as [v|] eqn:Eg; [|discriminate].
        unfold ls_get in Eg. destruct (find _ last) as [kv|] eqn:Ef; [|discriminate].
        apply find_some in Ef as [Hkv Ekv]. apply Nat.eqb_eq in Ekv.
        rewrite <- Ekv. apply in_map. exact Hkv.
    + intros m. rewrite in_app_iff, D.
      assert (Hrc : forall t', In t' r -> row_changed last1 t' = row_changed last t').
      { intros t' Ht'. unfold row_changed. rewrite Hl1; [reflexivity|].
        intros E. apply Hnot. rewrite <- E. apply in_map. exact Ht'. }
      assert (Hc0 : row_changed last t =
                    match ls_get (task_id t) last with
                    | Some v => negb (TaskState_eqb v (current_state t))
                    | None => true end) by reflexivity.
      destruct (match ls_get (task_id t) last with
                | Some v => negb (TaskState_eqb v (current_state t))
                | None => true end) eqn:Ec; simpl.
      * split.
        -- intros [[<-|[]]|[t' [Hm [Ht' Hc]]]].
           ++ exists t. split; [reflexivity|]. split; [left; reflexivity | exact Hc0].
           ++ exists t'. split; [exact Hm|]. split; [right; exact Ht'|]. rewrite <- Hrc; auto.
        -- intros [t' [Hm [[<-|Ht'] Hc]]]; [left; left; exact (eq_sym Hm)|].
           right. exists t'. split; [exact Hm|]. split; [exact Ht'|]. rewrite Hrc; auto.
      * split.
        -- intros [[]|[t' [Hm [Ht' Hc]]]].
           exists t'. split; [exact Hm|]. split; [right; exact Ht'|]. rewrite <- Hrc; auto.
        -- intros [t' [Hm [[<-|Ht'] Hc]]]; [congruence|].
           right. exists t'. split; [exact Hm|]. split; [exact Ht'|]. rewrite Hrc; auto.
Qed.

(** One pass of the stream over rows with distinct ids (the ids are the
    ledger's primary key): the tracked ids become exactly the listed ones,
    each tracked with a state equal to its current one; a row is sent
    exactly when its state differs from the one tracked before (or none was);
    and a heartbeat follows exactly when the wait timed out. *)
Theorem sse_poll_spec (last : LastStates) (event_occurred : bool) (rows : list TrainingTask) :
  NoDup (map task_id rows) ->
  let (ms, last') := sse_poll last event_occurred rows in
  (forall k, In k (map fst last') <-> In k (map task_id rows)) /\
  (forall t, In t rows ->
     exists v, ls_get (task_id t) last' = Some v /\ TaskState_eqb v (current_state t) = true) /\
  (forall t, In (SseData t) ms <-> In t rows /\ row_changed last t = true) /\
  (In SseHeartbeat ms <-> event_occurred = false) /\
  ~ In SsePing ms.
Proof.
  intros Hnd. unfold sse_poll.
  pose proof (emit_changed_spec last rows Hnd) as He.
  destruct (emit_changed last rows) as [ms l1]. destruct He as [A [B [C D]]].
  split; [|split; [|split; [|split]]].
  - intros k. rewrite in_map_iff. split.
    + intros [kv [<- Hkv]]. apply filter_In in Hkv as [_ Hkv].
      apply existsb_exists in Hkv as [k' [Hk' E]]. apply Nat.eqb_eq in E. rewrite E. exact Hk'.
    + intros Hk. assert (Hk1 : In k (map fst l1)) by (apply C; right; exact Hk).
      apply in_map_iff in Hk1 as [kv [<- Hkv]]. exists kv. split; [reflexivity|].
      apply filter_In. split; [exact Hkv|]. apply existsb_exists. exists (fst kv).
      split; [exact Hk | apply Nat.eqb_refl].
  - intros t Ht. rewrite ls_get_filter; [apply B; exact Ht|].
    intros kv Ek. apply existsb_exists. exists (task_id t).
    split; [apply in_map; exact Ht | rewrite Ek; apply Nat.eqb_refl].
  - intros t. rewrite in_app_iff, D. split.
    + intros [[t' [Hm [Ht' Hc]]]|Hh].
      * injection Hm as ->. auto.
      * destruct event_occurred; simpl in Hh; [contradiction | destruct Hh as [Hh|[]]; discriminate].
    + intros [Ht Hc]. left. exists t. auto.
  - rewrite in_app_iff, D. destruct event_occurred; simpl.
    + split; [|discriminate]. intros [[t [Hm _]]|[]]. discriminate.
    + split; [reflexivity|]. intros _. right. left. reflexivity.
  - rewrite in_app_iff, D. intros [[t [Hm _]]|Hh]; [discriminate|].
    destruct event_occurred; simpl in Hh; [contradiction | destruct Hh as [Hh|[]]; discriminate].
Qed.

Definition sse_task (i : nat) (st : TrainingTaskStatus) (p : Q) : TrainingTask :=
  mkTrainingTask i None "2.0.0" st p None None None None None None None.

Lemma sse_poll_spec_witness :
  let rows := [sse_task 1 T_RUNNING (40 # 1); sse_task 2 T_PENDING 0] in
  let last := [(1%nat, (T_RUNNING, (20 # 1)%Q, @None nat, @None string))] in
  let (ms, last') := sse_poll last true rows in
  (forall k, In k (map fst last') <-> In k (map task_id rows)) /\
  (forall t, In t rows ->
     exists v, ls_get (task_id t) last' = Some v /\ TaskState_eqb v (current_state t) = true) /\
  (forall t, In (SseData t) ms <-> In t rows /\ row_changed last t = true) /\
  (In SseHeartbeat ms <-> true = false) /\
  ~ In SsePing ms.
Proof.
  apply sse_poll_spec. simpl. repeat constructor; simpl; intuition discriminate.
Defined.

Lemma nodup_map_filter {A B} (g : A -> B) (f : A -> bool) (l : list A) :
  NoDup (map g l) -> NoDup (map g (filter f l)).
Proof.
  induction l as [|a l IH]; simpl; intros H; [constructor|].
  inversion H as [|? ? Hn H']; subst.
  destruct (f a); simpl; [|apply IH; exact H'].
  constructor; [|apply IH; exact H'].
  intros Hi. apply Hn. apply in_map_iff in Hi as [x [Hx Hxi]].
  apply filter_In in Hxi as [Hxi _]. rewrite <- Hx. apply in_map. exact Hxi.
Qed.

Lemma filter_app_disjoint {A} (p q : A -> bool) (l : list A) :
  (forall x, p x = true -> q x = false) ->
  Permutation (filter p l ++ filter q l) (filter (fun x => p x || q x) l).
Proof.
  intros Hd. induction l as [|a l IH]; simpl; [constructor|].
  destruct (p a) eqn:Ep; simpl.
  - rewrite (Hd a Ep). apply perm_skip. exact IH.
  - destruct (q a); simpl; [|exact IH].
    eapply perm_trans; [apply Permutation_sym, Permutation_middle | apply perm_skip; exact IH].
Qed.

Lemma sse_query_nodup (ts : list TrainingTask) (recent_cutoff : Z) :
  NoDup (map task_id ts) -> NoDup (map task_id (sse_query ts recent_cutoff)).
Proof.
  intros H. unfold sse_query.
  eapply Permutation_NoDup; [apply Permutation_map, Permutation_sym, filter_app_disjoint|].
  - intros x. destruct (task_status x); simpl; congruence.
  - apply nodup_map_filter. exact H.
Qed.

Lemma emit_changed_quiet (last : LastStates) (rows : list TrainingTask) :
  (forall t, In t rows ->
     exists v, ls_get (task_id t) last = Some v /\ TaskState_eqb v (current_state t) = true) ->
  fst (emit_changed last rows) = [].
Proof.
  induction rows as [|t r IH]; simpl; intros H; [reflexivity|].
  destruct (H t (or_introl eq_refl)) as [v [Ev Eq]]. rewrite Ev, Eq. simpl.
  specialize (IH (fun t' Ht' => H t' (or_intror Ht'))).
  destruct (emit_changed last r) as [ms l2]. simpl in *. exact IH.
Qed.

(** Two rounds of the stream over the same ledger with distinct ids and
    the same cutoff, with no notification between them: the first round
    clears the event, so the second one times out and sends only a heartbeat,
    and leaves the bus and the tracked states as they were. *)
Theorem sse_round_quiet (b : TrainingEventBus) (last : LastStates) (ts : list TrainingTask)
    (recent_cutoff : Z) :
  NoDup (map task_id ts) ->
  let '(ms1, b1, last1) := sse_round b last ts recent_cutoff in
  let '(ms2, b2, last2) := sse_round b1 last1 ts recent_cutoff in
  event_set b1 = false /\ ms2 = [SseHeartbeat] /\ b2 = b1 /\
  (forall k, In k (map fst last2) <-> In k (map fst last1)).
Proof.
  intros Hnd. pose proof (sse_query_nodup ts recent_cutoff Hnd) as Hq.
  set (rows := sse_query ts recent_cutoff) in *.
  unfold sse_round. fold rows.
  assert (Hb1 : event_set (snd (wait_for_update b)) = false).
  { unfold wait_for_update. destruct (event_set b) eqn:E; [reflexivity | exact E]. }
  destruct (wait_for_update b) as [occ b1] eqn:Ew. simpl in Hb1.
  pose proof (sse_poll_spec last occ rows Hq) as P1.
  destruct (sse_poll last occ rows) as [ms1 last1]. destruct P1 as [K1 [S1 _]].
  assert (Ew2 : wait_for_update b1 = (false, b1)) by (unfold wait_for_update; rewrite Hb1; reflexivity).
  rewrite Ew2.
  pose proof (sse_poll_spec last1 false rows Hq) as P2.
  unfold sse_poll in P2 |- *.
  pose proof (emit_changed_quiet last1 rows S1) as Q.
  destruct (emit_changed last1 rows) as [ms l2]. simpl in Q. subst ms.
  destruct P2 as [K2 _].
  split; [exact Hb1|]. split; [reflexivity|]. split; [reflexivity|].
  intros k. rewrite K2, K1. reflexivity.
Qed.

Lemma sse_round_quiet_witness :
  let ts := [sse_task 1 T_RUNNING (40 # 1); sse_task 2 T_PENDING 0] in
  let '(ms1, b1, last1) := sse_round (mkBus true [1%nat]) [] ts 0 in
  let '(ms2, b2, last2) := sse_round b1 last1 ts 0 in
  event_set b1 = false /\ ms2 = [SseHeartbeat] /\ b2 = b1 /\
  (forall k, In k (map fst last2) <-> In k (map fst last1)).
Proof.
  apply sse_round_quiet. simpl. repeat constructor; simpl; intuition discriminate.
Defined.

End SseFacts.

(* ------------------------------------------------------------------ *)
(** ** The unused-data pool and the fetch *)
Module FetchFacts.
Import Provenance TrainingFacts.

Lemma mem_In (x : nat) (l : list nat) : mem x l = true <-> In x l.
Proof.
  unfold mem. rewrite existsb_exists. split.
  - intros [y [Hy E]]. apply Nat.eqb_eq in E. subst y. exact Hy.
  - intros H. exists x. split; [exact H | apply Nat.eqb_refl].
Qed.

(** [get_unused_farm_data] returns each id once, and returns exactly the ids
    of eligible records (both targets present, verified) that no training
    session lists. *)
Theorem get_unused_farm_data_spec (db : DB) :
  NoDup (get_unused_farm_data db) /\
  (forall i, In i (get_unused_farm_data db) <->
     (exists r, In r (farm_data db) /\ eligible r = true /\ fd_id r = i) /\
     ~ In i (used_data_ids (sessions db))).
Proof.
  unfold get_unused_farm_data. split; [apply NoDup_nodup|].
  intros i. rewrite nodup_In, filter_In, in_map_iff, negb_true_iff. split.
  - intros [[r [Hr Hin]] Hm]. split.
    + apply filter_In in Hin as [Hin He]. exists r. auto.
    + intros Hu. apply mem_In in Hu. congruence.
  - intros [[r [Hr [He Hid]]] Hu]. split.
    + exists r. split; [exact Hid | apply filter_In; auto].
    + destruct (mem i _) eqn:E; [apply mem_In in E; contradiction | reflexivity].
Qed.

Definition time_le (a b : FarmData) : Prop := (recorded_at a <= recorded_at b)%Z.

Lemma insert_by_time_sorted (x : FarmData) (l : list FarmData) :
  StronglySorted time_le l -> StronglySorted time_le (insert_by_time x l).
Proof.
  induction l as [|y r IH]; simpl; intros H.
  - repeat constructor.
  - inversion H as [|? ? Hr Hall]; subst.
    destruct (Z.ltb (recorded_at x) (recorded_at y)) eqn:E.
    + apply Z.ltb_lt in E. constructor; [exact H|]. constructor; [unfold time_le; lia|].
      eapply Forall_impl; [|exact Hall]. unfold time_le. intros a Ha. lia.
    + apply Z.ltb_ge in E. constructor; [apply IH; exact Hr|].
      apply Forall_forall. intros a Ha. apply insert_by_time_in in Ha.
      destruct Ha as [->|Ha]; [unfold time_le; lia|].
      rewrite Forall_forall in Hall. apply Hall. exact Ha.
Qed.

Lemma sort_by_time_sorted (l : list FarmData) : StronglySorted time_le (sort_by_time l).
Proof.
  induction l as [|x r IH]; simpl; [constructor|]. apply insert_by_time_sorted. exact IH.
Qed.

Lemma strongly_sorted_filter {A} (R : A -> A -> Prop) (f : A -> bool) (l : list A) :
  StronglySorted R l -> StronglySorted R (filter f l).
Proof.
  induction l as [|a l IH]; simpl; intros H; [constructor|].
  inversion H as [|? ? Hl Hall]; subst.
  destruct (f a); [|apply IH; exact Hl].
  constructor; [apply IH; exact Hl|].
  rewrite Forall_forall in *. intros x Hx. apply filter_In in Hx as [Hx _]. apply Hall. exact Hx.
Qed.

Lemma strongly_sorted_map {A B} (R : B -> B -> Prop) (h : A -> B) (l : list A) :
  StronglySorted (fun a b => R (h a) (h b)) l -> StronglySorted R (map h l).
Proof.
  induction l as [|a l IH]; simpl; intros H; [constructor|].
  inversion H as [|? ? Hl Hall]; subst. constructor; [apply IH; exact Hl|].
  rewrite Forall_forall in *. intros x Hx. apply in_map_iff in Hx as [y [<- Hy]]. apply Hall. exact Hy.
Qed.

(** [fetch_training_data] fails with "No farm data found for training"
    exactly when no record carries a requested id; on success every row is
    the conversion of a requested record, has both targets, and the rows are
    in ascending [recorded_at] order. *)
Theorem fetch_training_data_spec (db : DB) (ids : list nat) :
  (fetch_training_data db ids = inl (ValueError "No farm data found for training") <->
   forall r, In r (farm_data db) -> ~ In (fd_id r) ids) /\
  (forall rows, fetch_training_data db ids = inr rows ->
     rows <> [] /\
     (forall x, In x rows ->
        exists r, In r (farm_data db) /\ In (fd_id r) ids /\ record_to_row r = x /\
                  targets_present x = true) /\
     StronglySorted (fun a b => (r_recorded_at a <= r_recorded_at b)%Z) rows).
Proof.
  assert (Hsel : forall r, In r (sort_by_time (filter (fun r => mem (fd_id r) ids) (farm_data db))) <->
                           In r (farm_data db) /\ In (fd_id r) ids).
  { intros r. rewrite sort_by_time_in, filter_In, mem_In. reflexivity. }
  unfold fetch_training_data. split.
  - destruct (sort_by_time _) as [|r0 rs] eqn:Es.
    + split; [|reflexivity]. intros _ r Hr Hi. destruct (proj2 (Hsel r) (conj Hr Hi)).
    + split.
      * destruct (filter targets_present _); discriminate.
      * intros H. exfalso. assert (Hin : In r0 (r0 :: rs)) by (left; reflexivity).
        apply Hsel in Hin as [Hr Hi]. exact (H r0 Hr Hi).
  - intros rows H.
    pose proof (sort_by_time_sorted (filter (fun r => mem (fd_id r) ids) (farm_data db))) as Hs.
    destruct (sort_by_time _) as [|r0 rs] eqn:Es; [discriminate|].
    destruct (filter targets_present (map record_to_row (r0 :: rs))) as [|x0 xs] eqn:Ef;
      [discriminate|]. injection H as <-.
    split; [discriminate|]. split.
    + intros x Hx. rewrite <- Ef in Hx. apply filter_In in Hx as [Hx Ht].
      apply in_map_iff in Hx as [r [<- Hr]]. apply Hsel in Hr as [Hr Hi].
      exists r. auto.
    + rewrite <- Ef. apply strongly_sorted_filter. apply strongly_sorted_map.
      exact Hs.
Qed.

End FetchFacts.

(* ------------------------------------------------------------------ *)
(** ** The task listing endpoint *)
Module TaskListFacts.
Import TaskApi.
Local Open Scope string_scope.

Section Created.
Variable created : TrainingTask -> Z.

Definition created_desc_t (a b : TrainingTask) : Prop := (created b <= created a)%Z.

Lemma insert_task_desc_in (x : TrainingTask) (l : list TrainingTask) (y : TrainingTask) :
  In y (insert_task_desc created x l) <-> y = x \/ In y l.
Proof.
  induction l as [|z r IH]; simpl; [intuition congruence|].
  destruct (Z.leb (created z) (created x)); simpl; [intuition congruence|].
  rewrite IH. intuition congruence.
Qed.

Lemma sort_tasks_desc_in (l : list TrainingTask) (y : TrainingTask) :
  In y (sort_tasks_desc created l) <-> In y l.
Proof.
  induction l as [|x r IH]; simpl; [tauto|].
  rewrite insert_task_desc_in, IH. intuition congruence.
Qed.

Lemma insert_task_desc_sorted (x : TrainingTask) (l : list TrainingTask) :
  StronglySorted created_desc_t l -> StronglySorted created_desc_t (insert_task_desc created x l).
Proof.
  induction l as [|y r IH]; simpl; intros H.
  - repeat constructor.
  - inversion H as [|? ? Hr Hall]; subst.
    destruct (Z.leb (created y) (created x)) eqn:E.
    + apply Z.leb_le in E. constructor; [exact H|]. constructor; [exact E|].
      eapply Forall_impl; [|exact Hall]. unfold created_desc_t. intros a Ha. lia.
    + apply Z.leb_gt in E. constructor; [apply IH; exact Hr|].
      apply Forall_forall. intros a Ha. apply insert_task_desc_in in Ha.
      destruct Ha as [->|Ha]; [unfold created_desc_t; lia|].
      rewrite Forall_forall in Hall. apply Hall. exact Ha.
Qed.

Lemma sort_tasks_desc_sorted (l : list TrainingTask) :
  StronglySorted created_desc_t (sort_tasks_desc created l).
Proof.
  induction l as [|x r IH]; simpl; [constructor|]. apply insert_task_desc_sorted. exact IH.
Qed.

End Created.

Lemma strongly_sorted_firstn {A} (R : A -> A -> Prop) (n : nat) (l : list A) :
  StronglySorted R l -> StronglySorted R (firstn n l).
Proof.
  revert l. induction n as [|n IH]; intros l H; simpl; [constructor|].
  destruct l as [|a l]; [constructor|]. inversion H as [|? ? Hl Hall]; subst.
  constructor; [apply IH; exact Hl|]. rewrite Forall_forall in *.
  intros x Hx. apply Hall. rewrite <- (firstn_skipn n l). apply in_or_app. left. exact Hx.
Qed.

Lemma strongly_sorted_app {A} (R : A -> A -> Prop) (l1 l2 : list A) :
  StronglySorted R (l1 ++ l2) -> forall u t, In u l1 -> In t l2 -> R u t.
Proof.
  induction l1 as [|a l1 IH]; simpl; intros H u t Hu Ht; [contradiction|].
  inversion H as [|? ? Hl Hall]; subst. destruct Hu as [<-|Hu].
  - rewrite Forall_forall in Hall. apply Hall. apply in_or_app. right. exact Ht.
  - exact (IH Hl u t Hu Ht).
Qed.

Lemma firstn_sorted_facts (created : TrainingTask -> Z) (n : nat) (xs : list TrainingTask) :
  let l := firstn n (sort_tasks_desc created xs) in
  List.length l <= n /\
  StronglySorted (fun a b => (created b <= created a)%Z) l /\
  (forall t, In t l -> In t xs) /\
  (List.length l < n -> forall t, In t xs -> In t l) /\
  (forall t u, In t xs -> ~ In t l -> In u l -> (created t <= created u)%Z).
Proof.
  intros l. pose proof (sort_tasks_desc_sorted created xs) as Hs.
  pose proof (firstn_skipn n (sort_tasks_desc created xs)) as Hfs.
  split; [unfold l; rewrite length_firstn; lia|].
  split; [apply strongly_sorted_firstn; exact Hs|].
  split; [intros t Ht; apply (sort_tasks_desc_in created); rewrite <- Hfs; apply in_or_app; left; exact Ht|].
  split.
  - intros Hlt t Ht. unfold l in *. rewrite length_firstn in Hlt.
    rewrite firstn_all2 by lia. apply sort_tasks_desc_in. exact Ht.
  - intros t u Ht Hn Hu. apply (sort_tasks_desc_in created) in Ht. rewrite <- Hfs in Ht, Hs.
    apply in_app_or in Ht as [Ht|Ht]; [contradiction|].
    exact (strongly_sorted_app _ _ _ Hs u t Hu Ht).
Qed.

Definition task_status_values : list string := ["pending"; "running"; "completed"; "failed"].

Lemma select_tasks_error (ts : list TrainingTask) (status_filter : option string) (e : Exn) :
  select_tasks ts status_filter = inl e <->
  exists f, status_filter = Some f /\ f <> "" /\ ~ In f task_status_values /\
            e = HTTPException 400 ("Invalid status: " ++ f).
Proof.
  unfold select_tasks, task_status_values. destruct status_filter as [f|].
  - unfold truthy_str. destruct (String.eqb f "") eqn:Ee; simpl.
    + apply String.eqb_eq in Ee. split; [discriminate|]. intros [f' [Hf [Hne _]]].
      injection Hf as <-. contradiction.
    + apply String.eqb_neq in Ee. unfold parse_task_status.
      destruct (String.eqb f "pending") eqn:E1;
        [apply String.eqb_eq in E1; subst f; split;
         [discriminate | intros [f' [Hf [_ [Hn _]]]]; injection Hf as <-; exfalso; apply Hn; simpl; tauto]|].
      destruct (String.eqb f "running") eqn:E2;
        [apply String.eqb_eq in E2; subst f; split;
         [discriminate | intros [f' [Hf [_ [Hn _]]]]; injection Hf as <-; exfalso; apply Hn; simpl; tauto]|].
      destruct (String.eqb f "completed") eqn:E3;
        [apply String.eqb_eq in E3; subst f; split;
         [discriminate | intros [f' [Hf [_ [Hn _]]]]; injection Hf as <-; exfalso; apply Hn; simpl; tauto]|].
      destruct (String.eqb f "failed") eqn:E4;
        [apply String.eqb_eq in E4; subst f; split;
         [discriminate | intros [f' [Hf [_ [Hn _]]]]; injection Hf as <-; exfalso; apply Hn; simpl; tauto]|].
      apply String.eqb_neq in E1, E2, E3, E4. split.
      * intros H. injection H as <-. exists f. split; [reflexivity|]. split; [exact Ee|].
        split; [simpl; intuition | reflexivity].
      * intros [f' [Hf [_ [_ ->]]]]. injection Hf as <-. reflexivity.
  - split; [discriminate | intros [f [Hf _]]; discriminate].
Qed.

(** The query succeeds exactly for a missing, empty or known filter. *)
Lemma select_tasks_ok (ts : list TrainingTask) (status_filter : option string) :
  (exists xs, select_tasks ts status_filter = inr xs) <->
  (forall f, status_filter = Some f -> f <> "" -> In f task_status_values).
Proof.
  split.
  - intros [xs Hxs] f Hf Hne.
    destruct (in_dec string_dec f task_status_values) as [Hin|Hout]; [exact Hin|].
    exfalso. destruct (select_tasks ts status_filter) as [e|] eqn:E; [discriminate|].
    assert (Hl : select_tasks ts status_filter = inl (HTTPException 400 ("Invalid status: " ++ f)))
      by (apply select_tasks_error; exists f; auto).
    congruence.
  - intros Hv. destruct (select_tasks ts status_filter) as [e|xs] eqn:E; [|exists xs; reflexivity].
    apply select_tasks_error in E as [f [Hf [Hne [Hn _]]]].
    exfalso. exact (Hn (Hv f Hf Hne)).
Qed.

(** [get_training_tasks] fails in three ways: a limit above 100 is a 422;
    otherwise a non-empty filter that is not one of the four lowercase status
    values is a 400 naming the filter; otherwise a negative limit is the
    database's refusal. *)
Theorem get_training_tasks_error (created : TrainingTask -> Z) (ts : list TrainingTask)
    (status_filter : option string) (limit : Z) (e : Exn) :
  get_training_tasks created ts status_filter limit = inl e <->
  ((100 < limit)%Z /\
     e = RequestValidationError ["query"; "limit"] "Input should be less than or equal to 100") \/
  ((limit <= 100)%Z /\
     exists f, status_filter = Some f /\ f <> "" /\
               ~ In f ["pending"; "running"; "completed"; "failed"] /\
               e = HTTPException 400 ("Invalid status: " ++ f)) \/
  ((limit < 0)%Z /\
     (forall f, status_filter = Some f -> f <> "" ->
                In f ["pending"; "running"; "completed"; "failed"]) /\
     e = DataError "LIMIT must not be negative").
Proof.
  unfold get_training_tasks. destruct (Z.ltb_spec 100 limit) as [Hg|Hg].
  - split.
    + intros H. injection H as <-. left. auto.
    + intros [[_ ->]|[[Hl _]|[Hl _]]]; [reflexivity | lia | lia].
  - destruct (select_tasks ts status_filter) as [e0|xs] eqn:Es.
    + pose proof (proj1 (select_tasks_error ts status_filter e0) Es) as He0.
      split.
      * intros H. injection H as <-. right. left. split; [exact Hg | exact He0].
      * intros [[Hl _]|[[_ [f [Hf [Hne [Hn ->]]]]]|[_ [Hv _]]]]; [lia| |].
        -- destruct He0 as [f' [Hf' [_ [_ ->]]]]. rewrite Hf in Hf'. injection Hf' as <-.
           reflexivity.
        -- exfalso. destruct He0 as [f [Hf [Hne [Hn _]]]]. exact (Hn (Hv f Hf Hne)).
    + assert (Hv : forall f, status_filter = Some f -> f <> "" -> In f task_status_values)
        by (apply (select_tasks_ok ts); exists xs; exact Es).
      destruct (Z.ltb_spec limit 0) as [Hn|Hn].
      * split.
        -- intros H. injection H as <-. right. right. auto.
        -- intros [[Hl _]|[[_ [f [Hf [Hne [Hout _]]]]]|[_ [_ ->]]]]; [lia| |reflexivity].
           exfalso. exact (Hout (Hv f Hf Hne)).
      * split; [discriminate|].
        intros [[Hl _]|[[_ [f [Hf [Hne [Hout _]]]]]|[Hl _]]]; [lia| |lia].
        exfalso. exact (Hout (Hv f Hf Hne)).
Qed.

(** On success [get_training_tasks] returns at most [limit] tasks, newest
    first, all matching the filter; fewer than [limit] means every matching
    task is listed, and a matching task left out is no newer than any task
    returned. *)
Theorem get_training_tasks_spec (created : TrainingTask -> Z) (ts : list TrainingTask)
    (status_filter : option string) (limit : Z) (l : list TrainingTask) :
  get_training_tasks created ts status_filter limit = inr l ->
  let wanted t := In t ts /\
    (forall f st, status_filter = Some f -> parse_task_status f = Some st -> task_status t = st) in
  (Z.of_nat (List.length l) <= limit)%Z /\
  StronglySorted (fun a b => (created b <= created a)%Z) l /\
  (forall t, In t l -> wanted t) /\
  ((Z.of_nat (List.length l) < limit)%Z -> forall t, wanted t -> In t l) /\
  (forall t u, wanted t -> ~ In t l -> In u l -> (created t <= created u)%Z).
Proof.
  intros H wanted.
  assert (Hsel : exists xs, (0 <= limit)%Z /\
                            l = firstn (Z.to_nat limit) (sort_tasks_desc created xs) /\
                            forall t, In t xs <-> wanted t).
  { unfold get_training_tasks in H. unfold wanted.
    destruct (Z.ltb 100 limit); [discriminate|].
    destruct (select_tasks ts status_filter) as [e|xs] eqn:Es; [discriminate|].
    destruct (Z.ltb_spec limit 0) as [Hn|Hn]; [discriminate|].
    injection H as <-. exists xs. split; [lia|]. split; [reflexivity|].
    unfold select_tasks in Es. destruct status_filter as [f|].
    - destruct (truthy_str (Some f)) eqn:Et.
      + destruct (parse_task_status f) as [st|] eqn:Ep; [|discriminate].
        injection Es as <-. intros t. rewrite filter_In.
        split.
        * intros [Ht Hs]. split; [exact Ht|]. intros f' st' Hf Hp. injection Hf as <-.
          rewrite Ep in Hp. injection Hp as <-. destruct (task_status t), st; simpl in Hs;
            congruence.
        * intros [Ht Hs]. split; [exact Ht|]. rewrite (Hs f st eq_refl Ep).
          destruct st; reflexivity.
      + injection Es as <-. intros t.
        unfold truthy_str in Et. apply negb_false_iff, String.eqb_eq in Et. subst f.
        split; [intros Ht; split; [exact Ht | intros f' st' Hf Hp; injection Hf as <-; discriminate]|].
        intros [Ht _]. exact Ht.
    - injection Es as <-. intros t.
      split; [intros Ht; split; [exact Ht | intros f' st' Hf; discriminate] | intros [Ht _]; exact Ht]. }
  destruct Hsel as [xs [Hpos [-> Hxs]]].
  destruct (firstn_sorted_facts created (Z.to_nat limit) xs) as [A [B [C [D E]]]].
  split; [lia|]. split; [exact B|].
  split; [intros t Ht; apply Hxs, C, Ht|].
  split; [intros Hlt t Ht; apply D; [lia | apply Hxs, Ht]|].
  intros t u Ht Hn Hu. apply (E t u); [apply Hxs, Ht | exact Hn | exact Hu].
Qed.

Lemma get_training_tasks_spec_witness :
  let ts := [SseFacts.sse_task 1 T_RUNNING 0; SseFacts.sse_task 2 T_FAILED 0;
             SseFacts.sse_task 3 T_RUNNING 0] in
  let created (t : TrainingTask) := Z.of_nat (task_id t) in
  let l := [SseFacts.sse_task 3 T_RUNNING 0] in
  let wanted t := In t ts /\
    (forall f st, Some "running" = Some f -> parse_task_status f = Some st -> task_status t = st) in
  (Z.of_nat (List.length l) <= 1)%Z /\
  StronglySorted (fun a b => (created b <= created a)%Z) l /\
  (forall t, In t l -> wanted t) /\
  ((Z.of_nat (List.length l) < 1)%Z -> forall t, wanted t -> In t l) /\
  (forall t u, wanted t -> ~ In t l -> In u l -> (created t <= created u)%Z).
Proof.
  apply (get_training_tasks_spec (fun t => Z.of_nat (task_id t))
           [SseFacts.sse_task 1 T_RUNNING 0; SseFacts.sse_task 2 T_FAILED 0;
            SseFacts.sse_task 3 T_RUNNING 0] (Some "running") 1%Z).
  vm_compute. reflexivity.
Defined.

Lemma get_training_tasks_error_witness :
  get_training_tasks (fun t => Z.of_nat (task_id t)) [SseFacts.sse_task 1 T_RUNNING 0]
    (Some "running") (-1)%Z = inl (DataError "LIMIT must not be negative").
Proof.
  apply (get_training_tasks_error (fun t => Z.of_nat (task_id t)) [SseFacts.sse_task 1 T_RUNNING 0]
           (Some "running") (-1)%Z (DataError "LIMIT must not be negative")).
  right. right. split; [lia|]. split; [|reflexivity].
  intros f Hf _. injection Hf as <-. simpl. tauto.
Defined.

End TaskListFacts.

(* ------------------------------------------------------------------ *)
(** ** The new model row and the epoch progress of a training run *)
Module TrainingExtraFacts.
Import Registry Events Provenance Training TrainingFacts.

#[local] Hint Resolve keeps_bind keeps_ret keeps_raise keeps_lift keeps_ite
  keeps_update_progress keeps_epoch_updates keeps_validate_base keeps_check_version_free
  keeps_pool_check keeps_fetch : keeps.

(** The row [train_model] writes for a run committed with the ids [unused]. *)
Definition new_row (p : TrainParams) (nid : nat) (now : Z) (unused : list nat) : ModelVersion :=
  mkModelVersion nid (tp_new_version p) (tp_base_model_id p)
    (Some (List.length unused)) COMPLETED false true None now None (tp_notes p).

Definition committed_row (p : TrainParams) (nid : nat) (now : Z) (unused : list nat)
    (t : Tables) (mv : ModelVersion) (s' : State) : Prop :=
  committed nid unused t mv s' /\ mv = new_row p nid now unused.

Section Run.
Context {Split Net Fitted Metrics Files Uploaded : Type}.
Context (rt : Runtime Split Net Fitted Metrics Files Uploaded).
Context (p : TrainParams) (task : option nat) (el : bool) (nid : nat) (now : Z).

Lemma commit_row_ok (unused : list nat) :
  ok (commit_model_and_session p nid now unused) (committed_row p nid now unused).
Proof.
  intros s r s' H. pose proof (commit_ok p nid now unused s r s' H) as Hc.
  unfold commit_model_and_session in H. injection H as <- <-. split; [exact Hc | reflexivity].
Qed.

Lemma train_after_clean_row_ok (base : option ModelVersion) (unused : list nat) (df : list Row) :
  ok (train_after_clean rt p task el nid now base unused df) (committed_row p nid now unused).
Proof.
  unfold train_after_clean.
  do 7 keeps_step.
  destruct (train_with_callbacks rt _ _ _ _) as [eps fres].
  do 9 keeps_step.
  apply commit_row_ok.
Qed.

Lemma train_model_row_ok :
  ok (train_model rt p task el nid now)
     (fun t mv s' => committed_row p nid now (unused_of t) t mv s').
Proof.
  unfold train_model.
  do 4 keeps_step.
  eapply ok_bind_gets.
  - intros unused. apply ok_bind_keeps; [apply keeps_pool_check | intros _].
    unfold train_from_fetch. do 4 keeps_step. apply train_after_clean_row_ok.
  - intros s y s' H. exact H.
Qed.

Lemma train_model_version_free (s s' : State) (mv : ModelVersion) :
  train_model rt p task el nid now s = (inr mv, s') ->
  existsb (fun m => String.eqb (version m) (tp_new_version p)) (models (st_db s)) = false.
Proof.
  intros H. unfold train_model in H.
  destruct (update_progress_inr task el (tp_epochs p) "Validating base model" 5 None s)
    as [s1 [E1 T1]].
  rewrite (bind_inr _ _ s s1 tt E1) in H.
  destruct (validate_base p s1) as [[e|base] s2] eqn:E2.
  - rewrite (bind_inl _ _ _ _ _ E2) in H. discriminate.
  - rewrite (bind_inr _ _ _ _ _ E2) in H.
    assert (Hs2 : s2 = s1).
    { rewrite (validate_base_models p s1 s1 eq_refl) in E2. injection E2 as _ <-. reflexivity. }
    subst s2. rewrite <- (tables_models _ _ T1).
    destruct (existsb _ (models (st_db s1))) eqn:Ex; [|reflexivity].
    assert (E3 : check_version_free p s1 =
                 (inl (ValueError ("Model version " ++ tp_new_version p ++ " already exists")), s1))
      by (unfold check_version_free; rewrite Ex; reflexivity).
    rewrite (bind_inl _ _ _ _ _ E3) in H. discriminate.
Qed.

End Run.

(** A successful [train_model] appends exactly the row [new_row]: the new id,
    the requested version, base and notes, the size of the unused pool as its
    data count, COMPLETED, active, not deployed; the requested version was not
    in the table before, so distinct version strings stay distinct. *)
Theorem train_model_new_row {Split Net Fitted Metrics Files Uploaded : Type}
    (rt : Runtime Split Net Fitted Metrics Files Uploaded)
    (p : TrainParams) (task : option nat) (el : bool) (nid : nat) (now : Z)
    (s s' : State) (mv : ModelVersion) :
  train_model rt p task el nid now s = (inr mv, s') ->
  mv = new_row p nid now (get_unused_farm_data (st_db s)) /\
  models (st_db s') = app (models (st_db s)) [mv] /\
  ~ In (tp_new_version p) (map version (models (st_db s))) /\
  (NoDup (map version (models (st_db s))) -> NoDup (map version (models (st_db s')))).
Proof.
  intros H.
  pose proof (train_model_row_ok rt p task el nid now s (inr mv) s' H) as [[Ht _] Hmv].
  pose proof (train_model_version_free rt p task el nid now s s' mv H) as Hfree.
  rewrite unused_of_tables in Hmv.
  assert (Hm : models (st_db s') = app (models (st_db s)) [mv]) by exact (f_equal t_models Ht).
  assert (Hn : ~ In (tp_new_version p) (map version (models (st_db s)))).
  { intros Hi. apply in_map_iff in Hi as [m [Hv Hi]].
    assert (Hx : existsb (fun m => String.eqb (version m) (tp_new_version p)) (models (st_db s)) = true).
    { apply existsb_exists. exists m. split; [exact Hi | apply String.eqb_eq; exact Hv]. }
    congruence. }
  split; [exact Hmv|]. split; [exact Hm|]. split; [exact Hn|].
  intros Hnd. rewrite Hm, map_app. simpl.
  apply (Permutation_NoDup (Permutation_cons_append _ _)). constructor; [|exact Hnd].
  rewrite Hmv. simpl. exact Hn.
Qed.

Lemma train_model_new_row_witness :
  match train_model rt_ok params0 None false 7 0%Z (pool_state 100) with
  | (inr mv, s') =>
      mv = new_row params0 7 0%Z (get_unused_farm_data (st_db (pool_state 100))) /\
      models (st_db s') = app (models (st_db (pool_state 100))) [mv] /\
      ~ In (tp_new_version params0) (map version (models (st_db (pool_state 100)))) /\
      (NoDup (map version (models (st_db (pool_state 100)))) ->
       NoDup (map version (models (st_db s'))))
  | (inl _, _) => False
  end.
Proof.
  destruct (train_model rt_ok params0 None false 7 0%Z (pool_state 100)) as [[e|mv] s'] eqn:E.
  - vm_compute in E. discriminate.
  - exact (train_model_new_row rt_ok params0 None false 7 0%Z (pool_state 100) s' mv E).
Defined.

Lemma epoch_updates_inr (p : TrainParams) (task : option nat) (el : bool) (eps : list nat)
    (s : State) : exists s1, epoch_updates p task el eps s = (inr tt, s1).
Proof.
  revert s. induction eps as [|e r IH]; intros s; cbn [epoch_updates]; [exists s; reflexivity|].
  destruct (update_progress_inr task el (tp_epochs p) ("Training epoch " ++ nat_str (S e) ++ "/" ++ nat_str (tp_epochs p))%string
              (30 + inject_Z (Z.of_nat (S e)) / inject_Z (Z.of_nat (tp_epochs p)) * 50)%Q
              (Some (S e)) s) as [s2 [E2 _]].
  rewrite (bind_inr _ _ _ _ _ E2). apply IH.
Qed.

Lemma epoch_updates_snoc (p : TrainParams) (task : option nat) (el : bool) (eps : list nat)
    (e : nat) (s : State) :
  exists s1, epoch_updates p task el eps s = (inr tt, s1) /\
    epoch_updates p task el (eps ++ [e]) s =
    update_progress task el (tp_epochs p) ("Training epoch " ++ nat_str (S e) ++ "/" ++ nat_str (tp_epochs p))%string
      (30 + inject_Z (Z.of_nat (S e)) / inject_Z (Z.of_nat (tp_epochs p)) * 50)%Q
      (Some (S e)) s1.
Proof.
  revert s. induction eps as [|a r IH]; intros s; cbn [epoch_updates app].
  - exists s. split; [reflexivity|].
    destruct (update_progress_inr task el (tp_epochs p) ("Training epoch " ++ nat_str (S e) ++ "/" ++ nat_str (tp_epochs p))%string
                (30 + inject_Z (Z.of_nat (S e)) / inject_Z (Z.of_nat (tp_epochs p)) * 50)%Q
                (Some (S e)) s) as [s2 [E2 _]].
    rewrite (bind_inr _ _ _ _ _ E2), E2. reflexivity.
  - destruct (update_progress_inr task el (tp_epochs p) ("Training epoch " ++ nat_str (S a) ++ "/" ++ nat_str (tp_epochs p))%string
                (30 + inject_Z (Z.of_nat (S a)) / inject_Z (Z.of_nat (tp_epochs p)) * 50)%Q
                (Some (S a)) s) as [s2 [E2 _]].
    rewrite (bind_inr _ _ _ _ _ E2), (bind_inr _ _ _ _ _ E2). apply IH.
Qed.

(** After the epoch callbacks of a run for ledger row [tid], the ledger row
    shows the last epoch that ended: progress [30 + (e+1)/epochs * 50],
    epoch [e+1] of [epochs]; that progress lies in
    (30, 80] whenever the reported epoch is at most [epochs]. The callbacks
    never fail. *)
Theorem epoch_updates_last_epoch (p : TrainParams) (tid : nat) (el : bool) (eps : list nat)
    (e : nat) (s : State) :
  let pct := (30 + inject_Z (Z.of_nat (S e)) / inject_Z (Z.of_nat (tp_epochs p)) * 50)%Q in
  fst (epoch_updates p (Some tid) el (eps ++ [e]) s) = inr tt /\
  (forall t, In t (tasks (st_db (snd (epoch_updates p (Some tid) el (eps ++ [e]) s)))) ->
     task_id t = tid ->
     progress_percentage t = pct /\ current_epoch t = Some (S e) /\
     total_epochs t = Some (tp_epochs p)) /\
  (S e <= tp_epochs p -> (30 < pct)%Q /\ (pct <= 80)%Q).
Proof.
  intros pct.
  destruct (epoch_updates_snoc p (Some tid) el eps e s) as [s1 [_ E]]. rewrite E. fold pct.
  split; [|split].
  - destruct (update_progress_inr (Some tid) el (tp_epochs p)
                   ("Training epoch " ++ nat_str (S e) ++ "/" ++ nat_str (tp_epochs p))%string
                   pct (Some (S e)) s1)
      as [s2 [E2 _]]. rewrite E2. reflexivity.
  - intros t Ht Hid. unfold update_progress in Ht.
    destruct (find_task (tasks (st_db s1)) tid) as [x|] eqn:Ef; simpl in Ht.
    + destruct (update_task_row _ _ _ t Ht Hid (fun x => eq_refl)) as [y [_ [_ ->]]].
      simpl. auto.
    + exfalso. unfold find_task in Ef. apply (find_none _ _ Ef) in Ht.
      rewrite Hid, Nat.eqb_refl in Ht. discriminate.
  - intros Hle.
    assert (Hb : (0 < inject_Z (Z.of_nat (tp_epochs p)))%Q).
    { change 0%Q with (inject_Z 0). rewrite <- Zlt_Qlt. lia. }
    assert (H0 : (0 < inject_Z (Z.of_nat (S e)) / inject_Z (Z.of_nat (tp_epochs p)))%Q).
    { apply Qlt_shift_div_l; [exact Hb|]. rewrite Qmult_0_l.
      change 0%Q with (inject_Z 0). rewrite <- Zlt_Qlt. lia. }
    assert (H1 : (inject_Z (Z.of_nat (S e)) / inject_Z (Z.of_nat (tp_epochs p)) <= 1)%Q).
    { apply Qle_shift_div_r; [exact Hb|]. rewrite Qmult_1_l. rewrite <- Zle_Qle. lia. }
    unfold pct. split; lra.
Qed.


End TrainingExtraFacts.
